(** * simex_platform: parameter validation and experiment versioning

    A shallow embedding of
    [Sources/python/SimEx/Parameters/GAPDPhotonDiffractorParameters.py]
    (the validated parameter object of the GAPD diffraction calculator) and
    of the experiment construction workflow exercised by
    [Tests/python/unittest/SimExTest/Calculators/EstherExperimentConstructionTest.py].

    A Python instance is its attribute dictionary: a finite map from
    (name-mangled) attribute names to values.  Methods are computations in
    a state-and-exception monad over that dictionary, the [warnings] log and
    the standard output. *)

From Stdlib Require Import ZArith QArith String Ascii List DecimalString DecimalN.
From stdpp Require Import base gmap strings list.

Local Open Scope Z_scope.

(** ** Python values *)

(** The two collaborator classes are consumed as opaque objects; an object
    is identified by a number. *)
Inductive PhotonBeamParameters := PhotonBeamParametersObject (ident : nat).
Inductive DetectorGeometry := DetectorGeometryObject (ident : nat).

Inductive PyType :=
| NoneType | TBool | TInt | TFloat | TStr | TList | TTuple
| TPhotonBeamParameters | TDetectorGeometry.

#[warnings="-register-all"]
Inductive Value :=
| VNone
| VBool (b : bool)
| VInt (z : Z)
| VFloat (q : Q)
| VStr (s : string)
| VList (items : list Value)
| VTuple (items : list Value)
| VBeam (p : PhotonBeamParameters)
| VGeometry (g : DetectorGeometry).

Definition type_of (v : Value) : PyType :=
  match v with
  | VNone => NoneType
  | VBool _ => TBool
  | VInt _ => TInt
  | VFloat _ => TFloat
  | VStr _ => TStr
  | VList _ => TList
  | VTuple _ => TTuple
  | VBeam _ => TPhotonBeamParameters
  | VGeometry _ => TDetectorGeometry
  end.

Definition PyType_eqb (t u : PyType) : bool :=
  match t, u with
  | NoneType, NoneType | TBool, TBool | TInt, TInt | TFloat, TFloat
  | TStr, TStr | TList, TList | TTuple, TTuple
  | TPhotonBeamParameters, TPhotonBeamParameters
  | TDetectorGeometry, TDetectorGeometry => true
  | _, _ => false
  end.

(** [bool] is a subclass of [int]; the other classes are unrelated. *)
Definition issubclass (t u : PyType) : bool :=
  PyType_eqb t u ||
  match t, u with TBool, TInt => true | _, _ => false end.

(** [isinstance(v, cls)], [cls] a class or a tuple of classes. *)
Definition isinstance (v : Value) (cls : list PyType) : bool :=
  existsb (issubclass (type_of v)) cls.

Definition is_None (v : Value) : bool :=
  match v with VNone => true | _ => false end.

(** The numeric value of a number; [True] and [False] are 1 and 0. *)
Definition as_number (v : Value) : option Q :=
  match v with
  | VBool b => Some (inject_Z (Z.b2z b))
  | VInt z => Some (inject_Z z)
  | VFloat q => Some q
  | _ => None
  end.

(** [a == b] for the comparisons the class makes: numbers compare by value
    across [bool], [int] and [float], [None] only equals [None], and a
    value of any other kind differs from a number and from [None]. *)
Definition py_eq (a b : Value) : bool :=
  match as_number a, as_number b with
  | Some x, Some y => Qeq_bool x y
  | _, _ =>
      match a, b with
      | VNone, VNone => true
      | VStr s, VStr t => String.eqb s t
      | _, _ => false
      end
  end.

Definition py_ne (a b : Value) : bool := negb (py_eq a b).

(** ** Exceptions, state and the method monad *)

Inductive Exception :=
| AttributeError (attribute : string)
| KeyError (key : string)
| TypeError (message : string)
| TypeMismatch (received : Value) (expected : list PyType)
| ValueError (message : string)
| IOError (message : string).

Inductive Outcome (A : Type) :=
| Return (a : A)
| Raise (e : Exception).
Arguments Return {A} a.
Arguments Raise {A} e.

(** [self] is the instance dictionary; [warnings_log] collects the messages
    passed to [warnings.warn] and [stdout] the printed lines, oldest
    first. *)
Record State := mkState {
  self : gmap string Value;
  warnings_log : list string;
  stdout : list string
}.

Definition M (A : Type) : Type := State → Outcome A * State.

#[global] Instance M_ret : MRet M := λ A a σ, (Return a, σ).
#[global] Instance M_bind : MBind M := λ A B f m σ,
  match m σ with
  | (Return a, σ') => f a σ'
  | (Raise e, σ') => (Raise e, σ')
  end.

Definition raise {A} (e : Exception) : M A := λ σ, (Raise e, σ).

Definition getattr (name : string) : M Value := λ σ,
  match self σ !! name with
  | Some v => (Return v, σ)
  | None => (Raise (AttributeError name), σ)
  end.

(** The state after the assignment [self.name = v]. *)
Definition assign (name : string) (v : Value) (σ : State) : State :=
  mkState (<[name := v]> (self σ)) (warnings_log σ) (stdout σ).

Definition setattr (name : string) (v : Value) : M unit := λ σ,
  (Return tt, assign name v σ).

Definition warn (message : string) : M unit := λ σ,
  (Return tt, mkState (self σ) (warnings_log σ ++ [message]) (stdout σ)).

Definition print (line : string) : M unit := λ σ,
  (Return tt, mkState (self σ) (warnings_log σ) (stdout σ ++ [line])).

(** [d[key]] on a dictionary. *)
Definition subscript (d : gmap string Value) (key : string) : M Value :=
  match d !! key with
  | Some v => mret v
  | None => raise (KeyError key)
  end.

(** The double-quote character, as a string. *)
Definition dquote : string := String (ascii_of_nat 34) EmptyString.

(** A freshly allocated instance, before [__init__] runs. *)
Definition fresh : State := mkState ∅ [] [].

(** Name mangling of a private attribute [__attr] used inside class [cls]. *)
Definition mangle (cls attr : string) : string := "_" +:+ cls +:+ "__" +:+ attr.

(** Modelled from the spec: [SimEx.Utilities.EntityChecks.checkAndSetInstance]
    is imported by the class and its code is missing.  Section 4.1:
    an absent ([None]) raw value yields the default unchanged; otherwise the
    value is returned as it is when it is an instance of one of the expected
    types, and a type mismatch naming the value and the expected types is
    raised when it is not. *)
Definition checkAndSetInstance (cls : list PyType) (var default : Value) : M Value :=
  if is_None var then mret default
  else if isinstance var cls then mret var
  else raise (TypeMismatch var cls).

(** [v > 0] and [v >= 0] on a Python value; ordering a non-number against
    an [int] is a [TypeError]. *)
Definition py_gt_0 (v : Value) : M bool :=
  match as_number v with
  | Some x => mret (negb (Qle_bool x 0))
  | None => raise (TypeError "'>' not supported")
  end.

Definition py_ge_0 (v : Value) : M bool :=
  match as_number v with
  | Some x => mret (Qle_bool 0 x)
  | None => raise (TypeError "'>=' not supported")
  end.

(** [modifies m ks]: running [m] leaves every attribute outside [ks] as it
    was, whether [m] returns or raises. *)
Definition modifies {A} (m : M A) (ks : list string) : Prop :=
  ∀ σ k, k ∉ ks → self (m σ).2 !! k = self σ !! k.

(** ** The class [GAPDPhotonDiffractorParameters] *)

(** The private attributes the class body names.  [self.__x] inside the
    class is the instance attribute [_GAPDPhotonDiffractorParameters__x]. *)
Definition private (attr : string) : string :=
  mangle "GAPDPhotonDiffractorParameters" attr.

Definition __sample : string := Eval cbv in private "sample".
Definition __sample_rotation : string := Eval cbv in private "sample_rotation".
Definition __rotation_quaternion : string := Eval cbv in private "rotation_quaternion".
Definition __uniform_rotation : string := Eval cbv in private "uniform_rotation".
Definition __calculate_Compton : string := Eval cbv in private "calculate_Compton".
Definition __number_of_slices : string := Eval cbv in private "number_of_slices".
Definition __slice_interval : string := Eval cbv in private "slice_interval".
Definition __pmi_start_ID : string := Eval cbv in private "pmi_start_ID".
Definition __pmi_stop_ID : string := Eval cbv in private "pmi_stop_ID".
Definition __beam_parameters : string := Eval cbv in private "beam_parameters".
Definition __detector_geometry : string := Eval cbv in private "detector_geometry".
Definition __number_of_diffraction_patterns : string :=
  Eval cbv in private "number_of_diffraction_patterns".
Definition __cpus_per_task_default : string :=
  Eval cbv in mangle "AbstractCalculatorParameters" "cpus_per_task_default".

(** The arguments of [__init__]; an argument that is left out is [None]. *)
Record InitArgs := mkInitArgs {
  arg_sample : Value;
  arg_sample_rotation : Value;
  arg_rotation_quaternion : Value;
  arg_uniform_rotation : Value;
  arg_calculate_Compton : Value;
  arg_slice_interval : Value;
  arg_number_of_slices : Value;
  arg_pmi_start_ID : Value;
  arg_pmi_stop_ID : Value;
  arg_number_of_diffraction_patterns : Value;
  arg_beam_parameters : Value;
  arg_detector_geometry : Value;
  arg_number_of_MPI_processes : Value;
  arg_parameters_dictionary : option (gmap string Value);
  arg_kwargs : gmap string Value
}.

Definition no_args : InitArgs :=
  mkInitArgs VNone VNone VNone VNone VNone VNone VNone VNone VNone VNone
             VNone VNone VNone None ∅.

(** The call [GAPDPhotonDiffractorParameters(rotation_quaternion=q, ...)]:
    the arguments [a] with [rotation_quaternion] given as [q]. *)
Definition with_rotation_quaternion (q : Value) (a : InitArgs) : InitArgs :=
  mkInitArgs (arg_sample a) (arg_sample_rotation a) q (arg_uniform_rotation a)
    (arg_calculate_Compton a) (arg_slice_interval a) (arg_number_of_slices a)
    (arg_pmi_start_ID a) (arg_pmi_stop_ID a)
    (arg_number_of_diffraction_patterns a) (arg_beam_parameters a)
    (arg_detector_geometry a) (arg_number_of_MPI_processes a)
    (arg_parameters_dictionary a) (arg_kwargs a).

(** The call [GAPDPhotonDiffractorParameters(uniform_rotation=u, ...)]. *)
Definition with_uniform_rotation (u : Value) (a : InitArgs) : InitArgs :=
  mkInitArgs (arg_sample a) (arg_sample_rotation a) (arg_rotation_quaternion a)
    u
    (arg_calculate_Compton a) (arg_slice_interval a) (arg_number_of_slices a)
    (arg_pmi_start_ID a) (arg_pmi_stop_ID a)
    (arg_number_of_diffraction_patterns a) (arg_beam_parameters a)
    (arg_detector_geometry a) (arg_number_of_MPI_processes a)
    (arg_parameters_dictionary a) (arg_kwargs a).

(** The call [GAPDPhotonDiffractorParameters(beam_parameters=b)]. *)
Definition with_beam_parameters (b : Value) (a : InitArgs) : InitArgs :=
  mkInitArgs (arg_sample a) (arg_sample_rotation a) (arg_rotation_quaternion a)
    (arg_uniform_rotation a)
    (arg_calculate_Compton a) (arg_slice_interval a) (arg_number_of_slices a)
    (arg_pmi_start_ID a) (arg_pmi_stop_ID a)
    (arg_number_of_diffraction_patterns a) b
    (arg_detector_geometry a) (arg_number_of_MPI_processes a)
    (arg_parameters_dictionary a) (arg_kwargs a).

(** The call [GAPDPhotonDiffractorParameters(parameters_dictionary=d, **kwargs)]. *)
Definition legacy_args (d kwargs : gmap string Value) : InitArgs :=
  mkInitArgs VNone VNone VNone VNone VNone VNone VNone VNone VNone VNone
             VNone VNone VNone (Some d) kwargs.

(** The keys the legacy branch of [__init__] reads. *)
Definition legacy_keys : list string :=
  [ "uniform_rotation"; "calculate_Compton"; "slice_interval";
    "number_of_slices"; "pmi_start_ID"; "pmi_stop_ID"; "beam_parameters";
    "detector_geometry"; "number_of_diffraction_patterns" ].

(** The keyword call the legacy branch runs as: the nine values it reads
    from the mapping [d], and [sample=None] whatever [d] holds (the branch
    starts with [self.sample = None] and never reads a ['sample'] entry). *)
Definition legacy_branch_args (d kwargs : gmap string Value) : InitArgs :=
  let value key := default VNone (d !! key) in
  mkInitArgs VNone VNone VNone
    (value "uniform_rotation") (value "calculate_Compton")
    (value "slice_interval") (value "number_of_slices")
    (value "pmi_start_ID") (value "pmi_stop_ID")
    (value "number_of_diffraction_patterns")
    (value "beam_parameters") (value "detector_geometry")
    VNone None kwargs.

(** Explicit keyword construction with the field values of the mapping
    [d]: every keyword argument of [__init__] is given the entry [d] holds
    under its name, and is left out ([None]) when [d] has none:
    [GAPDPhotonDiffractorParameters(sample=d['sample'],
    sample_rotation=d['sample_rotation'], ..., **kwargs)]. *)
Definition keyword_args (d kwargs : gmap string Value) : InitArgs :=
  let value key := default VNone (d !! key) in
  mkInitArgs (value "sample") (value "sample_rotation")
    (value "rotation_quaternion")
    (value "uniform_rotation") (value "calculate_Compton")
    (value "slice_interval") (value "number_of_slices")
    (value "pmi_start_ID") (value "pmi_stop_ID")
    (value "number_of_diffraction_patterns")
    (value "beam_parameters") (value "detector_geometry")
    (value "number_of_MPI_processes") None kwargs.

(** A legacy mapping with every key the legacy branch reads, holding the
    documented defaults. *)
Definition legacy_defaults : gmap string Value :=
  list_to_map
    [ ("uniform_rotation", VNone); ("calculate_Compton", VBool false);
      ("slice_interval", VInt 100); ("number_of_slices", VInt 1);
      ("pmi_start_ID", VInt 1); ("pmi_stop_ID", VInt 1);
      ("beam_parameters", VNone); ("detector_geometry", VNone);
      ("number_of_diffraction_patterns", VInt 1) ].

(** *** Queries and setters that do not touch the file system *)

Definition _setDefaults : M unit :=
  setattr __cpus_per_task_default (VInt 1).

Definition sample : M Value := getattr __sample.

Definition sample_setter (value : Value) : M unit :=
  value ← (if negb (is_None value)
           then checkAndSetInstance [TStr] value VNone
           else mret value);
  setattr __sample value.

Definition sample_rotation : M Value := getattr __uniform_rotation.

Definition sample_rotation_setter (value : Value) : M unit :=
  if negb (is_None value) then
    v ← checkAndSetInstance [TBool] value (VBool false);
    setattr __uniform_rotation v
  else
    setattr __uniform_rotation VNone.

(** The outcome of running a query whose evaluation may go on for ever:
    either it is done, or the budget of nested calls was used up at the
    given nesting depth. *)
Inductive Run (A : Type) :=
| Done (r : Outcome A * State)
| StillRunning (depth : nat).
Arguments Done {A} r.
Arguments StillRunning {A} depth.

(** The body of the [rotation_quaternion] query is
    [return self.rotation_quaternion]: reading the property calls the query
    once more.  [fuel] bounds the number of nested calls that are followed
    and [depth] counts the calls already entered. *)
Fixpoint rotation_quaternion_from (depth fuel : nat) (σ : State) : Run Value :=
  match fuel with
  | O => StillRunning depth
  | S fuel' => rotation_quaternion_from (S depth) fuel' σ
  end.

Definition rotation_quaternion (fuel : nat) (σ : State) : Run Value :=
  rotation_quaternion_from 0 fuel σ.

Definition rotation_quaternion_setter (value : Value) : M unit :=
  if negb (is_None value) then
    sr ← getattr __sample_rotation;
    (if py_ne sr (VBool true)
     then raise (ValueError
       "'rotation_quaternion' is not set since 'sample_rotation' is not True.")
     else mret tt);;
    ur ← getattr __uniform_rotation;
    (if py_ne ur VNone
     then warn "'uniform_rotation' will be overrided by 'rotation_quaternion'";;
          setattr __uniform_rotation VNone
     else mret tt);;
    v ← checkAndSetInstance [TList; TTuple] value VNone;
    setattr __rotation_quaternion v
  else
    setattr __rotation_quaternion VNone.

Definition uniform_rotation : M Value := getattr __uniform_rotation.

Definition uniform_rotation_setter (value : Value) : M unit :=
  if negb (is_None value) then
    sr ← getattr __sample_rotation;
    (if py_ne sr (VBool true)
     then raise (ValueError
       "'uniform_rotation' is not set since 'sample_rotation' is not True.")
     else mret tt);;
    rq ← getattr __rotation_quaternion;
    (if py_ne rq VNone
     then warn "'rotation_quaternion' will be overrided by 'uniform_rotation'";;
          setattr __rotation_quaternion VNone
     else mret tt);;
    v ← checkAndSetInstance [TBool] value VNone;
    setattr __uniform_rotation v
  else
    setattr __uniform_rotation VNone.

Definition calculate_Compton : M Value := getattr __calculate_Compton.

Definition calculate_Compton_setter (value : Value) : M unit :=
  v ← checkAndSetInstance [TBool] value (VBool false);
  setattr __calculate_Compton v.

Definition number_of_slices : M Value := getattr __number_of_slices.

Definition number_of_slices_setter (value : Value) : M unit :=
  number_of_slices ← checkAndSetInstance [TInt] value (VInt 1);
  positive ← py_gt_0 number_of_slices;
  if positive : bool then setattr __number_of_slices number_of_slices
  else raise (ValueError
    "The parameter 'slice_interval' must be a positive integer.").

Definition slice_interval : M Value := getattr __slice_interval.

Definition slice_interval_setter (value : Value) : M unit :=
  slice_interval ← checkAndSetInstance [TInt] value (VInt 100);
  positive ← py_gt_0 slice_interval;
  if positive : bool then setattr __slice_interval slice_interval
  else raise (ValueError
    "The parameter 'slice_interval' must be a positive integer.").

Definition pmi_start_ID : M Value := getattr __pmi_start_ID.

Definition pmi_start_ID_setter (value : Value) : M unit :=
  pmi_start_ID ← checkAndSetInstance [TInt] value (VInt 1);
  nonnegative ← py_ge_0 pmi_start_ID;
  if nonnegative : bool then setattr __pmi_start_ID pmi_start_ID
  else raise (ValueError
    "The parameters 'pmi_start_ID' must be a positive integer.").

Definition pmi_stop_ID : M Value := getattr __pmi_stop_ID.

Definition pmi_stop_ID_setter (value : Value) : M unit :=
  pmi_stop_ID ← checkAndSetInstance [TInt] value (VInt 1);
  nonnegative ← py_ge_0 pmi_stop_ID;
  if nonnegative : bool then setattr __pmi_stop_ID pmi_stop_ID
  else raise (ValueError
    "The parameters 'pmi_stop_ID' must be a positive integer.").

Definition number_of_diffraction_patterns : M Value :=
  getattr __number_of_diffraction_patterns.

Definition number_of_diffraction_patterns_setter (value : Value) : M unit :=
  number_of_diffraction_patterns ← checkAndSetInstance [TInt] value (VInt 1);
  positive ← py_gt_0 number_of_diffraction_patterns;
  if positive : bool
  then setattr __number_of_diffraction_patterns number_of_diffraction_patterns
  else raise (ValueError
    "The parameters 'number_of_diffraction_patterns' must be a positive integer.").

Definition beam_parameters : M Value := getattr __beam_parameters.

Definition detector_geometry : M Value := getattr __detector_geometry.

(** The properties of the class that have a setter. *)
Inductive Property :=
| p_sample | p_sample_rotation | p_rotation_quaternion | p_uniform_rotation
| p_calculate_Compton | p_number_of_slices | p_slice_interval
| p_pmi_start_ID | p_pmi_stop_ID | p_beam_parameters | p_detector_geometry
| p_number_of_diffraction_patterns.

(** The count fields, the attribute each one is stored in, its setter and
    the smallest integer the parameter documentation allows for it. *)
Inductive CountField :=
| SliceInterval | NumberOfSlices | PmiStartID | PmiStopID
| NumberOfDiffractionPatterns.

Definition count_slot (f : CountField) : string :=
  match f with
  | SliceInterval => __slice_interval
  | NumberOfSlices => __number_of_slices
  | PmiStartID => __pmi_start_ID
  | PmiStopID => __pmi_stop_ID
  | NumberOfDiffractionPatterns => __number_of_diffraction_patterns
  end.

Definition count_setter (f : CountField) : Value → M unit :=
  match f with
  | SliceInterval => slice_interval_setter
  | NumberOfSlices => number_of_slices_setter
  | PmiStartID => pmi_start_ID_setter
  | PmiStopID => pmi_stop_ID_setter
  | NumberOfDiffractionPatterns => number_of_diffraction_patterns_setter
  end.

Definition lower_bound (f : CountField) : Z :=
  match f with
  | SliceInterval | NumberOfSlices | NumberOfDiffractionPatterns => 1
  | PmiStartID | PmiStopID => 0
  end.

(** The attributes the code of the class assigns. *)
Definition assigned_attributes : list string :=
  [ __sample; __uniform_rotation; __rotation_quaternion; __calculate_Compton;
    __number_of_slices; __slice_interval; __pmi_start_ID; __pmi_stop_ID;
    __beam_parameters; __detector_geometry; __number_of_diffraction_patterns;
    __cpus_per_task_default ].

(** The attribute a property is stored in; [sample_rotation] has no
    attribute of its own, its query and its setter use [__uniform_rotation]. *)
Definition storage_slot (p : Property) : string :=
  match p with
  | p_sample => __sample
  | p_sample_rotation => __uniform_rotation
  | p_rotation_quaternion => __rotation_quaternion
  | p_uniform_rotation => __uniform_rotation
  | p_calculate_Compton => __calculate_Compton
  | p_number_of_slices => __number_of_slices
  | p_slice_interval => __slice_interval
  | p_pmi_start_ID => __pmi_start_ID
  | p_pmi_stop_ID => __pmi_stop_ID
  | p_beam_parameters => __beam_parameters
  | p_detector_geometry => __detector_geometry
  | p_number_of_diffraction_patterns => __number_of_diffraction_patterns
  end.

(** The value a setter stores when it is given [None]: the default passed
    to [checkAndSetInstance], and [None] itself in the [else] branches. *)
Definition default_value (p : Property) : Value :=
  match p with
  | p_calculate_Compton => VBool false
  | p_slice_interval => VInt 100
  | p_number_of_slices | p_pmi_start_ID | p_pmi_stop_ID
  | p_number_of_diffraction_patterns => VInt 1
  | _ => VNone
  end.

(** The classes each setter passes to [checkAndSetInstance]. *)
Definition expected_types (p : Property) : list PyType :=
  match p with
  | p_sample => [TStr]
  | p_sample_rotation | p_uniform_rotation | p_calculate_Compton => [TBool]
  | p_rotation_quaternion => [TList; TTuple]
  | p_number_of_slices | p_slice_interval | p_pmi_start_ID | p_pmi_stop_ID
  | p_number_of_diffraction_patterns => [TInt]
  | p_beam_parameters => [TStr; TPhotonBeamParameters]
  | p_detector_geometry => [TStr; TDetectorGeometry]
  end.

(** The two setters that read [__sample_rotation] before anything else. *)
Definition gated (p : Property) : bool :=
  match p with
  | p_rotation_quaternion | p_uniform_rotation => true
  | _ => false
  end.

(** The query of a property, as a computation that returns at once; the
    [rotation_quaternion] query has none (see [rotation_quaternion]). *)
Definition query (p : Property) : option (M Value) :=
  match p with
  | p_sample => Some sample
  | p_sample_rotation => Some sample_rotation
  | p_rotation_quaternion => None
  | p_uniform_rotation => Some uniform_rotation
  | p_calculate_Compton => Some calculate_Compton
  | p_number_of_slices => Some number_of_slices
  | p_slice_interval => Some slice_interval
  | p_pmi_start_ID => Some pmi_start_ID
  | p_pmi_stop_ID => Some pmi_stop_ID
  | p_beam_parameters => Some beam_parameters
  | p_detector_geometry => Some detector_geometry
  | p_number_of_diffraction_patterns => Some number_of_diffraction_patterns
  end.

(** The property of a count field. *)
Definition count_property (f : CountField) : Property :=
  match f with
  | SliceInterval => p_slice_interval
  | NumberOfSlices => p_number_of_slices
  | PmiStartID => p_pmi_start_ID
  | PmiStopID => p_pmi_stop_ID
  | NumberOfDiffractionPatterns => p_number_of_diffraction_patterns
  end.

(** An integer or a boolean (counted as 0 or 1) within the bound of a count
    field. *)
Definition in_bound (f : CountField) (v : Value) : bool :=
  match v with
  | VInt z => lower_bound f <=? z
  | VBool b => lower_bound f <=? Z.b2z b
  | _ => false
  end.

(** [preserves I m]: running [m] in a state that satisfies [I] ends in a
    state that satisfies [I], whether [m] returns or raises. *)
Definition preserves {A} (I : State → Prop) (m : M A) : Prop :=
  ∀ σ, I σ → I (m σ).2.

(** The attributes the initializer assigns through the setters it calls. *)
Definition constructor_slots : list string :=
  [ __sample; __uniform_rotation; __calculate_Compton; __slice_interval;
    __number_of_slices; __pmi_start_ID; __pmi_stop_ID; __beam_parameters;
    __detector_geometry; __number_of_diffraction_patterns ].

(** [steady m]: [m] never changes the state (it may return or raise). *)
Definition steady {A} (m : M A) : Prop := ∀ σ, (m σ).2 = σ.

(** [atomic m]: when [m] raises, the state is the one it started from. *)
Definition atomic {A} (m : M A) : Prop :=
  ∀ σ e σ', m σ = (Raise e, σ') → σ' = σ.

(** *** Setters that consult the file system, and the initializer *)

Section Environment.

(** [os.path.isfile] on the file system the process runs on. *)
Variable isfile : string → bool.

(** [DetectorGeometry(filename=...)], the loader of the geometry class. *)
Variable DetectorGeometry_from_file : string → Exception + DetectorGeometry.

(** [AbstractCalculatorParameters.__init__(self, **kwargs)]. *)
Variable AbstractCalculatorParameters_init : gmap string Value → M unit.

Definition beam_parameters_setter (value : Value) : M unit :=
  value ← checkAndSetInstance [TStr; TPhotonBeamParameters] value VNone;
  match value with
  | VStr path =>
      (if negb (isfile path)
       then raise (IOError ("The beam_parameters " +:+ path +:+
                            " is not a valid file or filename."))
       else mret tt);;
      raise (TypeError
        "Passing beam parameters as a file is currently unsupported. Please use the PhotonBeamParameters class.")
  | _ => setattr __beam_parameters value
  end.

Definition detector_geometry_setter (value : Value) : M unit :=
  value ←
    (if is_None value then
       print "WARNING: Geometry not set, calculation will most probably fail.";;
       mret value
     else
       value ← checkAndSetInstance [TStr; TDetectorGeometry] value VNone;
       match value with
       | VStr path =>
           (if negb (isfile path)
            then raise (IOError ("The parameter " +:+ dquote +:+ "detector_geometry" +:+
                                 dquote +:+ " " +:+ path +:+
                                 " is not a valid file or filename."))
            else mret tt);;
           match DetectorGeometry_from_file path with
           | inl e => raise e
           | inr g => mret (VGeometry g)
           end
       | _ => mret value
       end);
  setattr __detector_geometry value.

(** The assignments [__init__] makes before it calls the base class. *)
Definition init_fields (a : InitArgs) : M unit :=
  match arg_parameters_dictionary a with
  | Some parameters_dictionary =>
      sample_setter VNone;;
      v ← subscript parameters_dictionary "uniform_rotation";
      uniform_rotation_setter v;;
      v ← subscript parameters_dictionary "calculate_Compton";
      calculate_Compton_setter v;;
      v ← subscript parameters_dictionary "slice_interval";
      slice_interval_setter v;;
      v ← subscript parameters_dictionary "number_of_slices";
      number_of_slices_setter v;;
      v ← subscript parameters_dictionary "pmi_start_ID";
      pmi_start_ID_setter v;;
      v ← subscript parameters_dictionary "pmi_stop_ID";
      pmi_stop_ID_setter v;;
      v ← subscript parameters_dictionary "beam_parameters";
      beam_parameters_setter v;;
      v ← subscript parameters_dictionary "detector_geometry";
      detector_geometry_setter v;;
      v ← subscript parameters_dictionary "number_of_diffraction_patterns";
      number_of_diffraction_patterns_setter v
  | None =>
      sample_setter (arg_sample a);;
      uniform_rotation_setter (arg_uniform_rotation a);;
      calculate_Compton_setter (arg_calculate_Compton a);;
      slice_interval_setter (arg_slice_interval a);;
      number_of_slices_setter (arg_number_of_slices a);;
      pmi_start_ID_setter (arg_pmi_start_ID a);;
      pmi_stop_ID_setter (arg_pmi_stop_ID a);;
      beam_parameters_setter (arg_beam_parameters a);;
      detector_geometry_setter (arg_detector_geometry a);;
      number_of_diffraction_patterns_setter (arg_number_of_diffraction_patterns a)
  end.

Definition __init__ (a : InitArgs) : M unit :=
  init_fields a;;
  AbstractCalculatorParameters_init (arg_kwargs a).

Definition setter (p : Property) : Value → M unit :=
  match p with
  | p_sample => sample_setter
  | p_sample_rotation => sample_rotation_setter
  | p_rotation_quaternion => rotation_quaternion_setter
  | p_uniform_rotation => uniform_rotation_setter
  | p_calculate_Compton => calculate_Compton_setter
  | p_number_of_slices => number_of_slices_setter
  | p_slice_interval => slice_interval_setter
  | p_pmi_start_ID => pmi_start_ID_setter
  | p_pmi_stop_ID => pmi_stop_ID_setter
  | p_beam_parameters => beam_parameters_setter
  | p_detector_geometry => detector_geometry_setter
  | p_number_of_diffraction_patterns => number_of_diffraction_patterns_setter
  end.

(** What a client can run on an instance with the code of the class: an
    assignment to a property, the assignments of the initializer, and
    [_setDefaults]. *)
Inductive Method :=
| Assign (p : Property) (value : Value)
| InitFields (a : InitArgs)
| SetDefaults.

Definition call (m : Method) : M unit :=
  match m with
  | Assign p value => setter p value
  | InitFields a => init_fields a
  | SetDefaults => _setDefaults
  end.

(** The state after a sequence of calls, each one run whether or not the
    one before it raised (the client catches the exception). *)
Definition after (calls : list Method) (σ : State) : State :=
  foldl (λ σ m, (call m σ).2) σ calls.

End Environment.

(** ** Experiment versioning *)

(** The test module drives [SimEx.Calculators.EstherExperimentConstruction]
    and [SimEx.Parameters.EstherPhotonMatterInteractorParameters].  Their
    code is imported by the test but is not in the source tree, so the
    engine and the snapshot initializer follow the specification (sections
    3, 4.2, 4.3 and 6); the file names are those the test asserts. *)
Module Engine.

(** A path is the list of its components below the file-system root. *)
Abbreviation Path := (list string).

Inductive Content :=
| SnapshotDocument (fields : gmap string Value)
| PrimaryInput (parameters : gmap string Value)
| PulseInput (parameters : gmap string Value).

Inductive Node :=
| Directory
| File (content : Content).

Abbreviation FileSystem := (gmap Path Node).

Inductive Failure :=
| IOFailure (path : Path)
| VersionCollision (path : Path)
| PathNotFound (path : Path)
| FieldRejected (field : string) (value : Value).

Inductive Result (A : Type) :=
| Ok (a : A)
| Failed (f : Failure).
Arguments Ok {A} a.
Arguments Failed {A} f.

#[global] Instance Result_ret : MRet Result := λ A a, Ok a.
#[global] Instance Result_bind : MBind Result := λ A B f r,
  match r with
  | Ok a => f a
  | Failed e => Failed e
  end.

(** The file-extension family of the simulator input files. *)
Inductive Format := Dat | Txt.

Definition extension (f : Format) : string :=
  match f with Dat => ".dat" | Txt => ".txt" end.

Record ExperimentVersion := mkExperimentVersion {
  version : N;
  directory : Path;
  snapshot_file : Path;
  input_files : list Path
}.

(** The fixed name of the snapshot file and the suffix of the companion
    input file, as the test module expects them. *)
Definition snapshot_name : string := "parameters.json".
Definition pulse_suffix : string := "_intensite_impulsion".

(** The key under which the snapshot stores field [field]. *)
Definition snapshot_key (field : string) : string :=
  mangle "EstherPhotonMatterInteractorParameters" field.

(** Decimal notation without padding, and its reading. *)
Definition to_string (n : N) : string :=
  NilEmpty.string_of_uint (N.to_uint n).

(** Modelled from the spec: the directory scan of
    [EstherExperimentConstruction] is missing; section 4.3 step 2 keeps the
    names that parse as positive integers. *)
Definition parse_version (name : string) : option N :=
  match NilEmpty.uint_of_string name with
  | Some d => let n := N.of_uint d in
              if (0 <? n)%N then Some n else None
  | None => None
  end.

(** [child_name d p] is [Some s] exactly when [p] is [d] followed by the
    single component [s]. *)
Fixpoint child_name (d p : Path) : option string :=
  match d, p with
  | [], [s] => Some s
  | x :: d', y :: p' => if decide (x = y) then child_name d' p' else None
  | _, _ => None
  end.

(** The names of the immediate subdirectories of [d]. *)
Definition subdirectories (fs : FileSystem) (d : Path) : list string :=
  omap (λ entry : Path * Node,
          match entry.2 with
          | Directory => child_name d entry.1
          | File _ => None
          end)
       (map_to_list fs).

Definition existing_versions (fs : FileSystem) (d : Path) : list N :=
  omap parse_version (subdirectories fs d).

Definition max_version (l : list N) : N := foldr N.max 0%N l.

(** Modelled from the spec: the version allocation of
    [EstherExperimentConstruction] is missing; section 4.3 step 2, the next
    free version is one more than the largest positive-integer-named
    subdirectory, and 1 when there is none. *)
Definition next_version (fs : FileSystem) (d : Path) : N :=
  N.succ (max_version (existing_versions fs d)).

(** Modelled from the spec: the directory creation of
    [EstherExperimentConstruction] is missing; section 4.3 step 1, the
    directory is created when it is absent, together with the missing
    directories above it, and a regular file in the way makes the workspace
    uncreatable. *)
Fixpoint makedirs_from (above below : Path) (fs : FileSystem) : Result FileSystem :=
  match fs !! above with
  | Some (File _) => Failed (IOFailure above)
  | _ =>
      let fs' := <[above := Directory]> fs in
      match below with
      | [] => Ok fs'
      | c :: below' => makedirs_from (above ++ [c]) below' fs'
      end
  end.

Definition makedirs (p : Path) (fs : FileSystem) : Result FileSystem :=
  makedirs_from [] p fs.

(** Modelled from the spec: the creation of the version directory by
    [EstherExperimentConstruction] is missing; section 4.3 step 3, it fails
    when the name is taken. *)
Definition mkdir (p : Path) (fs : FileSystem) : Result FileSystem :=
  match fs !! p with
  | Some _ => Failed (VersionCollision p)
  | None => Ok (<[p := Directory]> fs)
  end.

(** Modelled from the spec: the file output of
    [EstherExperimentConstruction] is missing; section 4.3 steps 4 and 5
    write files, which replaces a file of the same name and fails on a
    directory of that name. *)
Definition write_file (p : Path) (c : Content) (fs : FileSystem) : Result FileSystem :=
  match fs !! p with
  | Some Directory => Failed (IOFailure p)
  | _ => Ok (<[p := File c]> fs)
  end.

(** Modelled from the spec: the snapshot loader of
    [EstherPhotonMatterInteractorParameters] is missing; section 4.2 (c)
    reads the persisted snapshot document back. *)
Definition read_snapshot (p : Path) (fs : FileSystem) : Result (gmap string Value) :=
  match fs !! p with
  | Some (File (SnapshotDocument fields)) => Ok fields
  | _ => Failed (PathNotFound p)
  end.

Section Rules.

(** The format toggle carried on the parameters (section 4.3 step 5);
    the specification keeps its threshold open. *)
Variable format_toggle : gmap string Value → Format.

(** Whether the validated setter of a field accepts a value. *)
Variable accepts : string → Value → bool.

(** Modelled from the spec: the constructor of
    [EstherExperimentConstruction] is missing; this is [construct] of
    section 4.3, steps 1 to 6 in order. *)
Definition construct (parameters : gmap string Value)
    (workspace_root : Path) (experiment_name : string)
    (fs : FileSystem) : Result (ExperimentVersion * FileSystem) :=
  let d := workspace_root ++ [experiment_name] in
  fs ← makedirs d fs;
  let v := next_version fs d in
  let vdir := d ++ [to_string v] in
  fs ← mkdir vdir fs;
  let snapshot := vdir ++ [snapshot_name] in
  fs ← write_file snapshot (SnapshotDocument parameters) fs;
  let stem := experiment_name +:+ to_string v in
  let ext := extension (format_toggle parameters) in
  let primary := vdir ++ [stem +:+ ext] in
  let pulse := vdir ++ [stem +:+ pulse_suffix +:+ ext] in
  fs ← write_file primary (PrimaryInput parameters) fs;
  fs ← write_file pulse (PulseInput parameters) fs;
  mret (mkExperimentVersion v vdir snapshot [primary; pulse], fs).

(** Modelled from the spec: the setters of
    [EstherPhotonMatterInteractorParameters] are missing; section 4.2, one
    keyword override is routed through the field's validated setter, which
    stores the value as it is or fails. *)
Definition apply_override (fields : gmap string Value)
    (override : string * Value) : Result (gmap string Value) :=
  if accepts override.1 override.2
  then Ok (<[snapshot_key override.1 := override.2]> fields)
  else Failed (FieldRejected override.1 override.2).

Fixpoint apply_overrides (fields : gmap string Value)
    (overrides : list (string * Value)) : Result (gmap string Value) :=
  match overrides with
  | [] => Ok fields
  | o :: rest =>
      fields ← apply_override fields o;
      apply_overrides fields rest
  end.

(** Modelled from the spec: the [read_from_file] initializer of
    [EstherPhotonMatterInteractorParameters] is missing; section 4.2 (c),
    it re-hydrates the snapshot stored in a version directory and then
    applies the keyword overrides given alongside it. *)
Definition read_from_file (version_directory : Path)
    (overrides : list (string * Value))
    (fs : FileSystem) : Result (gmap string Value) :=
  fields ← read_snapshot (version_directory ++ [snapshot_name]) fs;
  apply_overrides fields overrides.

End Rules.

(** The entries of a completed version directory: the directory itself,
    the snapshot and the two simulator input files (section 6). *)
Definition version_entries (workspace_root : Path) (experiment_name : string)
    (v : N) (format : Format) (parameters : gmap string Value)
    : list (Path * Node) :=
  let vdir := (workspace_root ++ [experiment_name]) ++ [to_string v] in
  let stem := experiment_name +:+ to_string v in
  [ (vdir, Directory);
    (vdir ++ [snapshot_name], File (SnapshotDocument parameters));
    (vdir ++ [stem +:+ extension format], File (PrimaryInput parameters));
    (vdir ++ [stem +:+ pulse_suffix +:+ extension format],
     File (PulseInput parameters)) ].

(** The descriptor of version [v]. *)
Definition descriptor (workspace_root : Path) (experiment_name : string)
    (v : N) (format : Format) : ExperimentVersion :=
  let vdir := (workspace_root ++ [experiment_name]) ++ [to_string v] in
  let stem := experiment_name +:+ to_string v in
  mkExperimentVersion v vdir (vdir ++ [snapshot_name])
    [ vdir ++ [stem +:+ extension format];
      vdir ++ [stem +:+ pulse_suffix +:+ extension format] ].

(** *** The workflow of [testComplexWorkflow] *)

Definition simName : string := "HPLF-Fe".
Definition _simdir : Path := ["Simulations"].

(** The keyword construction at the head of the test, as the snapshot it
    yields: every field under its snapshot key. *)
Definition test_parameters : gmap string Value :=
  list_to_map
    [ (snapshot_key "number_of_layers", VInt 2);
      (snapshot_key "ablator", VStr "CH");
      (snapshot_key "ablator_thickness", VFloat (25 # 1));
      (snapshot_key "sample", VStr "Iron");
      (snapshot_key "sample_thickness", VFloat (5 # 1));
      (snapshot_key "window", VNone);
      (snapshot_key "window_thickness", VFloat (0 # 1));
      (snapshot_key "laser_wavelength", VFloat (1064 # 1));
      (snapshot_key "laser_pulse", VStr "flat");
      (snapshot_key "laser_pulse_duration", VFloat (1 # 1));
      (snapshot_key "laser_intensity", VFloat (1 # 10));
      (snapshot_key "run_time", VFloat (10 # 1));
      (snapshot_key "delta_time", VFloat (1 # 20)) ].

(** The workspace of the test once the listed versions have been
    constructed; the empty list is the empty workspace before the first
    call creates the directories above the versions. *)
Definition workspace (versions : list (N * Format * gmap string Value))
    : FileSystem :=
  match versions with
  | [] => ∅
  | _ =>
      list_to_map
        ([ ([], Directory); (_simdir, Directory); (_simdir ++ [simName], Directory) ]
         ++ flat_map (λ entry : N * Format * gmap string Value,
                        version_entries _simdir simName
                          entry.1.1 entry.1.2 entry.2)
                     versions)
  end.

(** A run of a fallible computation that succeeded with a result
    satisfying [P]. *)
Definition succeeds_with {A} (r : Result A) (P : A → Prop) : Prop :=
  match r with
  | Ok a => P a
  | Failed _ => False
  end.

End Engine.

(** * Properties *)

(** ** Running computations of the method monad *)

Lemma bind_Return {A B} (m : M A) (f : A → M B) σ a σ' :
  m σ = (Return a, σ') → (m ≫= f) σ = f a σ'.
Proof. intros H. unfold mbind, M_bind. by rewrite H. Qed.

Lemma bind_Raise {A B} (m : M A) (f : A → M B) σ e σ' :
  m σ = (Raise e, σ') → (m ≫= f) σ = (Raise e, σ').
Proof. intros H. unfold mbind, M_bind. by rewrite H. Qed.

Lemma bind_Return_inv {A B} (m : M A) (f : A → M B) σ b σ' :
  (m ≫= f) σ = (Return b, σ') →
  ∃ a σ1, m σ = (Return a, σ1) ∧ f a σ1 = (Return b, σ').
Proof.
  unfold mbind, M_bind. destruct (m σ) as [[a|e] σ1]; [eauto | discriminate].
Qed.

(** Splits a hypothesis [H : (m1 ≫= λ x1, m2 ≫= ...) σ = (Return b, σ')]
    into one hypothesis per step, without looking inside the steps. *)
Ltac split_binds H :=
  repeat match type of H with
         | mbind _ _ _ = (Return _, _) =>
             let E := fresh "E" in
             apply bind_Return_inv in H as (? & ? & E & H)
         end;
  repeat match goal with x : unit |- _ => destruct x end.

Lemma subscript_Return d key σ v σ' :
  subscript d key σ = (Return v, σ') → d !! key = Some v ∧ σ' = σ.
Proof.
  unfold subscript. destruct (d !! key); [|discriminate].
  by intros [= <- <-].
Qed.

(** ** Count fields *)

Lemma Qle_bool_inject_Z_0 z : Qle_bool (inject_Z z) 0 = (z <=? 0).
Proof. unfold Qle_bool. simpl. by rewrite !Z.mul_1_r. Qed.

Lemma Qle_bool_0_inject_Z z : Qle_bool 0 (inject_Z z) = (0 <=? z).
Proof. unfold Qle_bool. simpl. by rewrite !Z.mul_1_r. Qed.

Lemma py_gt_0_int z σ : py_gt_0 (VInt z) σ = (Return (0 <? z), σ).
Proof.
  unfold py_gt_0. simpl. rewrite Qle_bool_inject_Z_0.
  by rewrite Z.ltb_antisym.
Qed.

Lemma py_ge_0_int z σ : py_ge_0 (VInt z) σ = (Return (0 <=? z), σ).
Proof. unfold py_ge_0. simpl. by rewrite Qle_bool_0_inject_Z. Qed.

Lemma checkAndSetInstance_int z d σ :
  checkAndSetInstance [TInt] (VInt z) d σ = (Return (VInt z), σ).
Proof. reflexivity. Qed.

(** The setter of a count field on an integer: a range check against the
    field's bound, then the assignment of the unchanged value. *)
Lemma count_setter_int f z σ :
  ∃ msg, count_setter f (VInt z) σ =
         if lower_bound f <=? z then (Return tt, assign (count_slot f) (VInt z) σ)
         else (Raise (ValueError msg), σ).
Proof.
  destruct f; eexists; cbn [count_setter lower_bound count_slot];
    unfold slice_interval_setter, number_of_slices_setter, pmi_start_ID_setter,
      pmi_stop_ID_setter, number_of_diffraction_patterns_setter;
    (erewrite bind_Return by apply checkAndSetInstance_int);
    first [ erewrite bind_Return by apply py_gt_0_int
          | erewrite bind_Return by apply py_ge_0_int ];
    try (replace (0 <? z) with (1 <=? z) by (apply eq_iff_eq_true; rewrite Z.leb_le, Z.ltb_lt; lia));
    destruct (_ <=? z); reflexivity.
Qed.

(** C6: every count field rejects an integer below its bound at set-time
    with a [ValueError], leaving the object as it was, and stores an integer
    within the bound unchanged (no clamping).  In particular
    [number_of_slices = 0] fails, [number_of_slices = None] stores the
    default 1, and [slice_interval = -5] fails. *)
Theorem count_fields_checked_at_set_time (f : CountField) (z : Z) (σ : State) :
  (z < lower_bound f →
   ∃ msg, count_setter f (VInt z) σ = (Raise (ValueError msg), σ)) ∧
  (lower_bound f ≤ z →
   count_setter f (VInt z) σ = (Return tt, assign (count_slot f) (VInt z) σ)) ∧
  (∃ msg, number_of_slices_setter (VInt 0) σ = (Raise (ValueError msg), σ)) ∧
  number_of_slices_setter VNone σ =
    (Return tt, assign __number_of_slices (VInt 1) σ) ∧
  (∃ msg, slice_interval_setter (VInt (-5)) σ = (Raise (ValueError msg), σ)).
Proof.
  destruct (count_setter_int f z σ) as [msg Hf].
  split; [|split; [|split; [|split]]].
  - intros Hlt. exists msg. rewrite Hf.
    destruct (Z.leb_spec (lower_bound f) z); [lia | done].
  - intros Hle. rewrite Hf.
    destruct (Z.leb_spec (lower_bound f) z); [done | lia].
  - by eexists.
  - reflexivity.
  - by eexists.
Qed.

Lemma count_fields_checked_at_set_time_witness :
  (∃ msg, count_setter NumberOfSlices (VInt 0) fresh = (Raise (ValueError msg), fresh)) ∧
  count_setter PmiStartID (VInt 0) fresh =
    (Return tt, assign (count_slot PmiStartID) (VInt 0) fresh).
Proof.
  split.
  - destruct (count_fields_checked_at_set_time NumberOfSlices 0 fresh) as (H & _).
    apply H. simpl. lia.
  - destruct (count_fields_checked_at_set_time PmiStartID 0 fresh) as (_ & H & _).
    apply H. simpl. lia.
Defined.

(** ** The [rotation_quaternion] query *)

(** C10: the [rotation_quaternion] query calls itself and never returns:
    whatever the number of nested calls that are followed, the evaluation
    is still running, at exactly that depth. *)
Theorem rotation_quaternion_never_returns (fuel : nat) (σ : State) :
  rotation_quaternion fuel σ = StillRunning fuel.
Proof.
  unfold rotation_quaternion.
  enough (∀ depth, rotation_quaternion_from depth fuel σ
                   = StillRunning (depth + fuel)%nat) as H by apply (H 0%nat).
  induction fuel as [|fuel IH]; intros depth; simpl.
  - f_equal. lia.
  - rewrite IH. f_equal. lia.
Qed.

(** ** Footprints *)

Lemma modifies_ret {A} (a : A) ks : modifies (mret a) ks.
Proof. by intros σ k _. Qed.

Lemma modifies_raise {A} e ks : modifies (@raise A e) ks.
Proof. by intros σ k _. Qed.

Lemma modifies_getattr name ks : modifies (getattr name) ks.
Proof. intros σ k _. unfold getattr. by destruct (self σ !! name). Qed.

Lemma modifies_warn msg ks : modifies (warn msg) ks.
Proof. by intros σ k _. Qed.

Lemma modifies_print line ks : modifies (print line) ks.
Proof. by intros σ k _. Qed.

Lemma modifies_setattr name v ks : name ∈ ks → modifies (setattr name v) ks.
Proof.
  intros Hin σ k Hk. simpl. apply lookup_insert_ne. by intros ->.
Qed.

Lemma modifies_bind {A B} (m : M A) (f : A → M B) ks :
  modifies m ks → (∀ a, modifies (f a) ks) → modifies (m ≫= f) ks.
Proof.
  intros Hm Hf σ k Hk. unfold mbind, M_bind.
  specialize (Hm σ k Hk). destruct (m σ) as [[a|e] σ1]; simpl in *.
  - by rewrite Hf.
  - done.
Qed.

Lemma modifies_subscript d key ks : modifies (subscript d key) ks.
Proof.
  unfold subscript. destruct (d !! key); [apply modifies_ret | apply modifies_raise].
Qed.

Lemma modifies_checkAndSetInstance cls var default ks :
  modifies (checkAndSetInstance cls var default) ks.
Proof.
  unfold checkAndSetInstance.
  destruct (is_None var); [apply modifies_ret|].
  destruct (isinstance var cls); [apply modifies_ret | apply modifies_raise].
Qed.

Lemma modifies_py_gt_0 v ks : modifies (py_gt_0 v) ks.
Proof.
  unfold py_gt_0. destruct (as_number v); [apply modifies_ret | apply modifies_raise].
Qed.

Lemma modifies_py_ge_0 v ks : modifies (py_ge_0 v) ks.
Proof.
  unfold py_ge_0. destruct (as_number v); [apply modifies_ret | apply modifies_raise].
Qed.

Lemma modifies_weaken {A} (m : M A) ks ks' :
  ks ⊆ ks' → modifies m ks → modifies m ks'.
Proof. intros Hsub Hm σ k Hk. apply Hm. intros Hin. apply Hk, Hsub, Hin. Qed.

Create HintDb footprint.
#[local] Hint Resolve modifies_ret modifies_raise modifies_getattr modifies_warn
  modifies_print modifies_subscript modifies_checkAndSetInstance
  modifies_py_gt_0 modifies_py_ge_0 : footprint.

(** Membership in, and inclusion between, lists that are written out. *)
Ltac in_list := repeat first [apply list_elem_of_here | apply list_elem_of_further].

Ltac list_incl :=
  let x := fresh "x" in
  let H := fresh "H" in
  intros x H;
  repeat (apply elem_of_cons in H as [-> | H]);
  [ in_list .. | by apply elem_of_nil in H ].

(** Splits a computation along its binds and conditionals and closes the
    leaves with the lemmas above. *)
Ltac footprint :=
  repeat first
    [ apply modifies_bind; [| intros ?]
    | apply modifies_setattr; solve [in_list]
    | solve [auto with footprint]
    | match goal with
      | |- modifies (if ?b then _ else _) _ => destruct b
      | |- modifies (match ?x with _ => _ end) _ => destruct x
      end ].

Section Footprints.

Variable isfile : string → bool.
Variable DetectorGeometry_from_file : string → Exception + DetectorGeometry.

Lemma modifies_sample_setter v : modifies (sample_setter v) [__sample].
Proof. unfold sample_setter. footprint. Qed.

Lemma modifies_sample_rotation_setter v :
  modifies (sample_rotation_setter v) [__uniform_rotation].
Proof. unfold sample_rotation_setter. footprint. Qed.

Lemma modifies_rotation_quaternion_setter v :
  modifies (rotation_quaternion_setter v) [__uniform_rotation; __rotation_quaternion].
Proof. unfold rotation_quaternion_setter. footprint. Qed.

Lemma modifies_uniform_rotation_setter v :
  modifies (uniform_rotation_setter v) [__uniform_rotation; __rotation_quaternion].
Proof. unfold uniform_rotation_setter. footprint. Qed.

Lemma modifies_calculate_Compton_setter v :
  modifies (calculate_Compton_setter v) [__calculate_Compton].
Proof. unfold calculate_Compton_setter. footprint. Qed.

Lemma modifies_number_of_slices_setter v :
  modifies (number_of_slices_setter v) [__number_of_slices].
Proof. unfold number_of_slices_setter. footprint. Qed.

Lemma modifies_slice_interval_setter v :
  modifies (slice_interval_setter v) [__slice_interval].
Proof. unfold slice_interval_setter. footprint. Qed.

Lemma modifies_pmi_start_ID_setter v :
  modifies (pmi_start_ID_setter v) [__pmi_start_ID].
Proof. unfold pmi_start_ID_setter. footprint. Qed.

Lemma modifies_pmi_stop_ID_setter v :
  modifies (pmi_stop_ID_setter v) [__pmi_stop_ID].
Proof. unfold pmi_stop_ID_setter. footprint. Qed.

Lemma modifies_number_of_diffraction_patterns_setter v :
  modifies (number_of_diffraction_patterns_setter v)
           [__number_of_diffraction_patterns].
Proof. unfold number_of_diffraction_patterns_setter. footprint. Qed.

Lemma modifies_beam_parameters_setter v :
  modifies (beam_parameters_setter isfile v) [__beam_parameters].
Proof. unfold beam_parameters_setter. footprint. Qed.

Lemma modifies_detector_geometry_setter v :
  modifies (detector_geometry_setter isfile DetectorGeometry_from_file v)
           [__detector_geometry].
Proof. unfold detector_geometry_setter. footprint. Qed.

End Footprints.

(** ** The footprint of the class *)

Section ClassFootprint.

Variable isfile : string → bool.
Variable DetectorGeometry_from_file : string → Exception + DetectorGeometry.

Ltac widen lem := eapply modifies_weaken; [| apply lem]; list_incl.

Ltac widen_setter :=
  first
    [ widen modifies_sample_setter
    | widen modifies_sample_rotation_setter
    | widen modifies_rotation_quaternion_setter
    | widen modifies_uniform_rotation_setter
    | widen modifies_calculate_Compton_setter
    | widen modifies_number_of_slices_setter
    | widen modifies_slice_interval_setter
    | widen modifies_pmi_start_ID_setter
    | widen modifies_pmi_stop_ID_setter
    | widen modifies_beam_parameters_setter
    | widen modifies_detector_geometry_setter
    | widen modifies_number_of_diffraction_patterns_setter ].

Lemma modifies_setter p v :
  modifies (setter isfile DetectorGeometry_from_file p v) assigned_attributes.
Proof. destruct p; simpl; widen_setter. Qed.

Lemma modifies_init_fields a :
  modifies (init_fields isfile DetectorGeometry_from_file a) assigned_attributes.
Proof.
  unfold init_fields.
  destruct (arg_parameters_dictionary a);
    repeat first
      [ widen_setter
      | apply modifies_subscript
      | apply modifies_bind; [| intros ?] ].
Qed.

Lemma modifies_call m :
  modifies (call isfile DetectorGeometry_from_file m) assigned_attributes.
Proof.
  destruct m; simpl.
  - apply modifies_setter.
  - apply modifies_init_fields.
  - unfold _setDefaults. apply modifies_setattr. in_list.
Qed.

Lemma after_preserves calls σ k :
  k ∉ assigned_attributes →
  self (after isfile DetectorGeometry_from_file calls σ) !! k = self σ !! k.
Proof.
  intros Hk. revert σ. induction calls as [|m calls IH]; intros σ; [done|].
  change (after isfile DetectorGeometry_from_file (m :: calls) σ)
    with (after isfile DetectorGeometry_from_file calls
            (call isfile DetectorGeometry_from_file m σ).2).
  rewrite IH. by apply modifies_call.
Qed.

End ClassFootprint.

(** ** The rotation properties *)

Lemma sample_rotation_never_assigned : __sample_rotation ∉ assigned_attributes.
Proof.
  intros H. repeat (apply elem_of_cons in H as [H | H]; [discriminate H |]).
  by apply elem_of_nil in H.
Qed.

Lemma sample_rotation_setter_Return v σ σ' :
  sample_rotation_setter v σ = (Return tt, σ') →
  σ' = assign __uniform_rotation v σ.
Proof.
  unfold sample_rotation_setter.
  destruct v as [|b|z|q|s|l|l|p|g]; simpl;
    first [ by intros [= <-] | unfold mbind, M_bind; simpl; discriminate ].
Qed.

Lemma uniform_rotation_setter_Return v σ σ' :
  uniform_rotation_setter v σ = (Return tt, σ') →
  self σ' !! __uniform_rotation = Some v.
Proof.
  unfold uniform_rotation_setter. destruct (is_None v) eqn:Hv; simpl.
  - destruct v; try discriminate Hv. intros [= <-]. apply lookup_insert_eq.
  - intros H.
    apply bind_Return_inv in H as (sr & σ1 & _ & H).
    apply bind_Return_inv in H as (? & σ2 & _ & H).
    apply bind_Return_inv in H as (rq & σ3 & _ & H).
    apply bind_Return_inv in H as (? & σ4 & _ & H).
    apply bind_Return_inv in H as (w & σ5 & Hc & H).
    injection H as <-.
    unfold checkAndSetInstance in Hc. rewrite Hv in Hc.
    destruct (isinstance v [TBool]); [|discriminate Hc].
    injection Hc as <- <-. apply lookup_insert_eq.
Qed.

(** With no [__sample_rotation] attribute on the instance, an assignment of
    a value other than [None] to either rotation property raises
    [AttributeError] and changes nothing. *)
Lemma rotation_setters_need_sample_rotation v σ :
  self σ !! __sample_rotation = None → is_None v = false →
  rotation_quaternion_setter v σ = (Raise (AttributeError __sample_rotation), σ) ∧
  uniform_rotation_setter v σ = (Raise (AttributeError __sample_rotation), σ).
Proof.
  intros Hs Hv. unfold rotation_quaternion_setter, uniform_rotation_setter.
  rewrite Hv. simpl.
  split; (erewrite bind_Raise; [reflexivity|]); unfold getattr; by rewrite Hs.
Qed.

(** C3: on an instance built with the defaults and then given
    [sample_rotation = True], both queries answer [True], so the sample is
    to be rotated and [uniform_rotation] is set; assigning a quaternion now
    does not warn and switch over but raises [AttributeError], because the
    setter reads the attribute [__sample_rotation] that nothing assigns. *)
Theorem rotation_conflict_raises_AttributeError
    (isfile : string → bool)
    (DetectorGeometry_from_file : string → Exception + DetectorGeometry) :
  ∃ σ1 σ2,
    init_fields isfile DetectorGeometry_from_file no_args fresh = (Return tt, σ1) ∧
    sample_rotation_setter (VBool true) σ1 = (Return tt, σ2) ∧
    sample_rotation σ2 = (Return (VBool true), σ2) ∧
    uniform_rotation σ2 = (Return (VBool true), σ2) ∧
    rotation_quaternion_setter (VList [VInt 1; VInt 0; VInt 0; VInt 0]) σ2
      = (Raise (AttributeError __sample_rotation), σ2) ∧
    warnings_log σ2 = [].
Proof.
  eexists _, _. split; [reflexivity|]. split; [reflexivity|].
  split; [reflexivity|]. split; [reflexivity|]. split; reflexivity.
Qed.

(** C4: the initializer never assigns its [rotation_quaternion] argument:
    a construction that passes a quaternion and leaves [sample_rotation]
    out runs exactly as the construction without the quaternion, assigns
    the fields without raising and stores no quaternion.  (Passing
    [uniform_rotation=True] instead does end the construction, with the
    [AttributeError] for [__sample_rotation].) *)
Theorem init_drops_rotation_quaternion
    (isfile : string → bool)
    (DetectorGeometry_from_file : string → Exception + DetectorGeometry)
    (AbstractCalculatorParameters_init : gmap string Value → M unit)
    (q : Value) (a : InitArgs) :
  __init__ isfile DetectorGeometry_from_file AbstractCalculatorParameters_init
           (with_rotation_quaternion q a)
  = __init__ isfile DetectorGeometry_from_file AbstractCalculatorParameters_init a ∧
  ∃ σ1,
    init_fields isfile DetectorGeometry_from_file
      (with_rotation_quaternion (VList [VInt 1; VInt 0; VInt 0; VInt 0]) no_args)
      fresh = (Return tt, σ1) ∧
    arg_sample_rotation
      (with_rotation_quaternion (VList [VInt 1; VInt 0; VInt 0; VInt 0]) no_args)
      = VNone ∧
    self σ1 !! __rotation_quaternion = None ∧
    __init__ isfile DetectorGeometry_from_file AbstractCalculatorParameters_init
      (with_rotation_quaternion (VList [VInt 1; VInt 0; VInt 0; VInt 0]) no_args)
      fresh = AbstractCalculatorParameters_init ∅ σ1 ∧
    __init__ isfile DetectorGeometry_from_file AbstractCalculatorParameters_init
      (with_uniform_rotation (VBool true) no_args) fresh
    = (Raise (AttributeError __sample_rotation), assign __sample VNone fresh).
Proof.
  split; [reflexivity|].
  eexists. split; [reflexivity|]. split; [reflexivity|].
  split; [reflexivity|]. split; reflexivity.
Qed.

(** ** Path-valued properties *)

Section Paths.

Variable isfile : string → bool.
Variable DetectorGeometry_from_file : string → Exception + DetectorGeometry.

Lemma beam_parameters_setter_string path σ :
  beam_parameters_setter isfile (VStr path) σ =
    (Raise (if isfile path
            then TypeError
              "Passing beam parameters as a file is currently unsupported. Please use the PhotonBeamParameters class."
            else IOError ("The beam_parameters " +:+ path +:+
                          " is not a valid file or filename.")), σ).
Proof.
  unfold beam_parameters_setter, mbind, M_bind. simpl.
  destruct (isfile path); reflexivity.
Qed.

Lemma beam_parameters_setter_Return v σ σ' :
  beam_parameters_setter isfile v σ = (Return tt, σ') →
  σ' = assign __beam_parameters v σ ∧ (v = VNone ∨ ∃ p, v = VBeam p).
Proof.
  destruct v as [|b|z|q|s|l|l|p|g];
    try (unfold beam_parameters_setter, mbind, M_bind; simpl; discriminate).
  - intros [= <-]. eauto.
  - rewrite beam_parameters_setter_string. discriminate.
  - intros [= <-]. eauto.
Qed.

Lemma detector_geometry_setter_missing path σ :
  isfile path = false →
  detector_geometry_setter isfile DetectorGeometry_from_file (VStr path) σ =
    (Raise (IOError ("The parameter " +:+ dquote +:+ "detector_geometry" +:+
                     dquote +:+ " " +:+ path +:+
                     " is not a valid file or filename.")), σ).
Proof.
  intros H. unfold detector_geometry_setter. simpl.
  unfold mbind, M_bind. simpl. rewrite H. reflexivity.
Qed.

End Paths.

(** C7, as the code has it: a string that names no existing file is
    rejected by the [detector_geometry] and [beam_parameters] setters with
    an [IOError] whose message contains the path, and the object stays as it
    was; the [sample] setter checks the type only and stores the string. *)
Theorem missing_file_rejected_by_geometry_and_beam
    (isfile : string → bool)
    (DetectorGeometry_from_file : string → Exception + DetectorGeometry)
    (path : string) (σ : State) :
  isfile path = false →
  (∃ before after,
     detector_geometry_setter isfile DetectorGeometry_from_file (VStr path) σ
     = (Raise (IOError (before +:+ path +:+ after)), σ)) ∧
  (∃ before after,
     beam_parameters_setter isfile (VStr path) σ
     = (Raise (IOError (before +:+ path +:+ after)), σ)) ∧
  sample_setter (VStr path) σ = (Return tt, assign __sample (VStr path) σ).
Proof.
  intros H. split; [|split].
  - exists ("The parameter " +:+ dquote +:+ "detector_geometry" +:+ dquote +:+ " "),
           " is not a valid file or filename.".
    by rewrite detector_geometry_setter_missing.
  - exists "The beam_parameters ", " is not a valid file or filename.".
    rewrite beam_parameters_setter_string, H. reflexivity.
  - reflexivity.
Qed.

Lemma missing_file_rejected_by_geometry_and_beam_witness :
  (∃ before after,
     detector_geometry_setter (λ _, false) (λ path, inl (IOError path))
       (VStr "no_such_file.geom") fresh
     = (Raise (IOError (before +:+ "no_such_file.geom" +:+ after)), fresh)) ∧
  (∃ before after,
     beam_parameters_setter (λ _, false) (VStr "no_such_file.geom") fresh
     = (Raise (IOError (before +:+ "no_such_file.geom" +:+ after)), fresh)) ∧
  sample_setter (VStr "no_such_file.geom") fresh
    = (Return tt, assign __sample (VStr "no_such_file.geom") fresh).
Proof.
  apply (missing_file_rejected_by_geometry_and_beam
           (λ _, false) (λ path, inl (IOError path)) "no_such_file.geom" fresh).
  reflexivity.
Defined.

(** C7 as stated fails for [sample]: on a file system with no file at all,
    where the [detector_geometry] setter rejects the path, assigning the same
    path to [sample] returns normally and stores it. *)
Lemma sample_accepts_missing_file :
  (detector_geometry_setter (λ _, false) (λ path, inl (IOError path))
     (VStr "no_such_file.xyz") fresh).1
  = Raise (IOError ("The parameter " +:+ dquote +:+ "detector_geometry" +:+ dquote
                    +:+ " no_such_file.xyz is not a valid file or filename.")) ∧
  sample_setter (VStr "no_such_file.xyz") fresh
  = (Return tt, assign __sample (VStr "no_such_file.xyz") fresh) ∧
  sample (assign __sample (VStr "no_such_file.xyz") fresh)
  = (Return (VStr "no_such_file.xyz"),
     assign __sample (VStr "no_such_file.xyz") fresh).
Proof. split; [|split]; reflexivity. Qed.

(** C8: a string assigned to [beam_parameters] always raises, [IOError]
    when it names no file and [TypeError] (the feature is switched off)
    when it does, and leaves the object as it was; an assignment that
    returns has stored [None] or a [PhotonBeamParameters] object, and so a
    construction that completes holds one of these two (the initializer of
    the base class works on its own attributes and leaves
    [__beam_parameters] alone). *)
Theorem beam_parameters_never_holds_a_string
    (isfile : string → bool)
    (DetectorGeometry_from_file : string → Exception + DetectorGeometry)
    (AbstractCalculatorParameters_init : gmap string Value → M unit)
    (path : string) (v : Value) (a : InitArgs) (σ σ' : State) :
  beam_parameters_setter isfile (VStr path) σ =
    (Raise (if isfile path
            then TypeError
              "Passing beam parameters as a file is currently unsupported. Please use the PhotonBeamParameters class."
            else IOError ("The beam_parameters " +:+ path +:+
                          " is not a valid file or filename.")), σ) ∧
  (beam_parameters_setter isfile v σ = (Return tt, σ') →
   σ' = assign __beam_parameters v σ ∧ (v = VNone ∨ ∃ p, v = VBeam p)) ∧
  ((∀ kwargs σ0,
      self (AbstractCalculatorParameters_init kwargs σ0).2 !! __beam_parameters
      = self σ0 !! __beam_parameters) →
   __init__ isfile DetectorGeometry_from_file AbstractCalculatorParameters_init a σ
     = (Return tt, σ') →
   self σ' !! __beam_parameters = Some VNone ∨
   ∃ p, self σ' !! __beam_parameters = Some (VBeam p)).
Proof.
  split; [apply beam_parameters_setter_string|].
  split; [apply beam_parameters_setter_Return|].
  intros Hbase H. unfold __init__ in H.
  apply bind_Return_inv in H as ([] & σ1 & Hfields & H).
  assert (self σ' !! __beam_parameters = self σ1 !! __beam_parameters) as ->.
  { specialize (Hbase (arg_kwargs a) σ1). by rewrite H in Hbase. }
  clear H Hbase σ'.
  enough (∃ w, self σ1 !! __beam_parameters = Some w ∧ (w = VNone ∨ ∃ p, w = VBeam p))
    as (w & -> & [->|[p ->]]) by eauto.
  unfold init_fields in Hfields.
  assert (∀ w σa σb σc σd x y,
            beam_parameters_setter isfile w σa = (Return tt, σb) →
            detector_geometry_setter isfile DetectorGeometry_from_file x σb
              = (Return tt, σc) →
            number_of_diffraction_patterns_setter y σc = (Return tt, σd) →
            ∃ w, self σd !! __beam_parameters = Some w ∧
                 (w = VNone ∨ ∃ p, w = VBeam p)) as Htail.
  { intros w σa σb σc σd x y Hb Hd Hn.
    apply beam_parameters_setter_Return in Hb as [-> Hw]. exists w. split; [|done].
    pose proof (modifies_number_of_diffraction_patterns_setter y σc
                  __beam_parameters) as E1.
    rewrite Hn in E1. simpl in E1. rewrite E1.
    2:{ intros Hin. apply elem_of_cons in Hin as [Hin|Hin]; [discriminate Hin|].
        by apply elem_of_nil in Hin. }
    pose proof (modifies_detector_geometry_setter isfile DetectorGeometry_from_file
                  x (assign __beam_parameters w σa) __beam_parameters) as E2.
    rewrite Hd in E2. simpl in E2. rewrite E2.
    2:{ intros Hin. apply elem_of_cons in Hin as [Hin|Hin]; [discriminate Hin|].
        by apply elem_of_nil in Hin. }
    apply lookup_insert_eq. }
  destruct (arg_parameters_dictionary a) as [d|]; split_binds Hfields.
  - repeat match goal with
           | E : subscript _ _ _ = (Return _, _) |- _ =>
               apply subscript_Return in E as [_ <-]
           end.
    eauto.
  - eauto.
Qed.

Lemma beam_parameters_never_holds_a_string_witness :
  self (__init__ (λ _, true) (λ path, inl (IOError path)) (λ _, _setDefaults)
          (with_beam_parameters (VBeam (PhotonBeamParametersObject 0)) no_args)
          fresh).2 !! __beam_parameters = Some VNone ∨
  ∃ p, self (__init__ (λ _, true) (λ path, inl (IOError path)) (λ _, _setDefaults)
          (with_beam_parameters (VBeam (PhotonBeamParametersObject 0)) no_args)
          fresh).2 !! __beam_parameters = Some (VBeam p).
Proof.
  destruct (beam_parameters_never_holds_a_string
              (λ _, true) (λ path, inl (IOError path)) (λ _, _setDefaults)
              "beam.h5" VNone
              (with_beam_parameters (VBeam (PhotonBeamParametersObject 0)) no_args)
              fresh
              (__init__ (λ _, true) (λ path, inl (IOError path)) (λ _, _setDefaults)
                 (with_beam_parameters (VBeam (PhotonBeamParametersObject 0)) no_args)
                 fresh).2) as (_ & _ & H).
  apply H.
  - intros kwargs σ0. by apply lookup_insert_ne.
  - reflexivity.
Defined.

(** ** Legacy construction *)

Section Legacy.

Variable isfile : string → bool.
Variable DetectorGeometry_from_file : string → Exception + DetectorGeometry.
Variable AbstractCalculatorParameters_init : gmap string Value → M unit.

Lemma subscript_Some d key v σ :
  d !! key = Some v → subscript d key σ = (Return v, σ).
Proof. intros H. unfold subscript. by rewrite H. Qed.

Lemma subscript_None d key σ :
  d !! key = None → subscript d key σ = (Raise (KeyError key), σ).
Proof. intros H. unfold subscript. by rewrite H. Qed.

(** The legacy branch up to the lookup of ['calculate_Compton']. *)
Lemma legacy_fields_missing_calculate_Compton d a σ :
  arg_parameters_dictionary a = Some d →
  d !! "calculate_Compton" = None →
  ∃ e σ', init_fields isfile DetectorGeometry_from_file a σ = (Raise e, σ') ∧
          (d !! "uniform_rotation" = Some VNone → e = KeyError "calculate_Compton").
Proof.
  intros Hd Hc. unfold init_fields. rewrite Hd.
  erewrite (bind_Return (sample_setter VNone)) by reflexivity.
  destruct (d !! "uniform_rotation") as [v|] eqn:Hu.
  - erewrite (bind_Return (subscript d "uniform_rotation"))
      by (by apply subscript_Some).
    destruct (uniform_rotation_setter v (assign __sample VNone σ))
      as [[[]|e] σ1] eqn:Hs.
    + erewrite bind_Return by exact Hs.
      erewrite bind_Raise by (by apply subscript_None).
      eexists _, _. split; [reflexivity | done].
    + erewrite bind_Raise by exact Hs.
      eexists _, _. split; [reflexivity|].
      intros [= ->]. discriminate Hs.
  - erewrite bind_Raise by (by apply subscript_None).
    eexists _, _. split; [reflexivity | discriminate].
Qed.

Lemma legacy_missing_calculate_Compton d kwargs a σ :
  arg_parameters_dictionary a = Some d →
  arg_kwargs a = kwargs →
  d !! "calculate_Compton" = None →
  (∃ e, (__init__ isfile DetectorGeometry_from_file
           AbstractCalculatorParameters_init a σ).1 = Raise e) ∧
  (d !! "uniform_rotation" = Some VNone →
   (__init__ isfile DetectorGeometry_from_file
      AbstractCalculatorParameters_init a σ).1
   = Raise (KeyError "calculate_Compton")).
Proof.
  intros Hd _ Hc.
  destruct (legacy_fields_missing_calculate_Compton d a σ Hd Hc)
    as (e & σ' & Hfields & He).
  unfold __init__. erewrite bind_Raise by exact Hfields. simpl.
  split; [eauto|]. intros Hu. by rewrite He.
Qed.

Lemma legacy_is_branch_construction d kwargs :
  (∀ key, key ∈ legacy_keys → is_Some (d !! key)) →
  __init__ isfile DetectorGeometry_from_file AbstractCalculatorParameters_init
           (legacy_args d kwargs)
  = __init__ isfile DetectorGeometry_from_file AbstractCalculatorParameters_init
             (legacy_branch_args d kwargs).
Proof.
  intros Hkeys.
  assert (∀ key, key ∈ legacy_keys →
            subscript d key = mret (default VNone (d !! key))) as Hsub.
  { intros key Hin. destruct (Hkeys key Hin) as [v Hv].
    unfold subscript. by rewrite Hv. }
  unfold __init__, init_fields, legacy_args, legacy_branch_args. simpl.
  rewrite !Hsub by in_list.
  reflexivity.
Qed.

End Legacy.

(** ** The versioning engine *)

Import Engine.

(** Closes an equation between closed terms by evaluation. *)
Ltac vm_reflexivity :=
  lazymatch goal with |- _ = ?r => vm_cast_no_check (@eq_refl _ r) end.

Lemma Result_bind_Ok_inv {A B} (r : Result A) (f : A → Result B) b :
  r ≫= f = Ok b → ∃ a, r = Ok a ∧ f a = Ok b.
Proof. destruct r as [a|e]; [eauto | discriminate]. Qed.

Lemma parse_version_to_string n :
  (0 < n)%N → parse_version (to_string n) = Some n.
Proof.
  intros Hn. unfold parse_version, to_string.
  rewrite NilEmpty.usu, DecimalN.Unsigned.of_to.
  by apply N.ltb_lt in Hn as ->.
Qed.

Lemma parse_version_positive s n : parse_version s = Some n → (0 < n)%N.
Proof.
  unfold parse_version. destruct (NilEmpty.uint_of_string s); [|discriminate].
  destruct (N.ltb_spec 0 (N.of_uint u)); [|discriminate]. by intros [= <-].
Qed.

Lemma child_name_spec (d p : Path) (s : string) : child_name d p = Some s ↔ p = d ++ [s].
Proof.
  revert p. induction d as [|x d IH]; intros p; simpl.
  - destruct p as [|y [|z p]]; split; intros H; try discriminate H;
      by injection H as ->.
  - destruct p as [|y p]; [split; discriminate|].
    destruct (decide (x = y)) as [->|Hne].
    + rewrite IH. split; [by intros -> | by intros [= ->]].
    + split; [discriminate | intros [= -> _]; by destruct Hne].
Qed.

Lemma elem_of_subdirectories (fs : FileSystem) (d : Path) (s : string) :
  s ∈ subdirectories fs d ↔ fs !! (d ++ [s]) = Some Directory.
Proof.
  unfold subdirectories. rewrite list_elem_of_omap. split.
  - intros ([p node] & Hin & Hname). apply elem_of_map_to_list in Hin.
    simpl in Hname. destruct node; [|discriminate].
    apply child_name_spec in Hname as ->. done.
  - intros H. exists (d ++ [s], Directory). split.
    + by apply elem_of_map_to_list.
    + simpl. by apply child_name_spec.
Qed.

Lemma elem_of_existing_versions (fs : FileSystem) (d : Path) (n : N) :
  n ∈ existing_versions fs d ↔
  ∃ s, fs !! (d ++ [s]) = Some Directory ∧ parse_version s = Some n.
Proof.
  unfold existing_versions. rewrite list_elem_of_omap.
  by setoid_rewrite elem_of_subdirectories.
Qed.

Lemma max_version_ge l n : n ∈ l → (n ≤ max_version l)%N.
Proof.
  induction l as [|m l IH]; simpl.
  - by intros ?%elem_of_nil.
  - intros [->|Hin]%elem_of_cons; [lia|]. specialize (IH Hin). lia.
Qed.

Lemma max_version_elem l : max_version l = 0%N ∨ max_version l ∈ l.
Proof.
  induction l as [|m l IH]; simpl; [by left|].
  destruct (N.max_spec m (max_version l)) as [[_ ->]|[_ ->]].
  - destruct IH as [->|IH]; [by left | right; by apply list_elem_of_further].
  - right. apply list_elem_of_here.
Qed.

(** The largest version only depends on which versions are listed. *)
Lemma max_version_ext l l' :
  (∀ n, n ∈ l ↔ n ∈ l') → max_version l = max_version l'.
Proof.
  intros H. apply N.le_antisymm.
  - destruct (max_version_elem l) as [->|Hin]; [lia|].
    by apply max_version_ge, H.
  - destruct (max_version_elem l') as [->|Hin]; [lia|].
    by apply max_version_ge, H.
Qed.

Lemma path_extension_ne (p q : Path) : q ≠ [] → p ≠ p ++ q.
Proof.
  intros Hq H. apply Hq. apply (app_inv_head p). by rewrite app_nil_r.
Qed.

(** Creating a directory and those above it leaves everything strictly
    below it as it was. *)
Lemma makedirs_from_below (above below q : Path) (fs fs' : FileSystem) :
  makedirs_from above below fs = Ok fs' → q ≠ [] →
  fs' !! (above ++ below ++ q) = fs !! (above ++ below ++ q).
Proof.
  revert above fs. induction below as [|c below IH]; intros above fs H Hq.
  - simpl in *.
    assert (fs' = <[above := Directory]> fs) as ->.
    { destruct (fs !! above) as [[|c]|]; by inversion H. }
    apply lookup_insert_ne. by apply path_extension_ne.
  - simpl in H.
    assert (makedirs_from (above ++ [c]) below (<[above := Directory]> fs) = Ok fs')
      as H'.
    { destruct (fs !! above) as [[|c0]|]; by inversion H. }
    apply IH in H'; [|done]. rewrite <- app_assoc in H'. simpl in *.
    rewrite H'. apply lookup_insert_ne. by apply path_extension_ne.
Qed.

Lemma makedirs_children (d : Path) (s : string) (fs fs' : FileSystem) :
  makedirs d fs = Ok fs' → fs' !! (d ++ [s]) = fs !! (d ++ [s]).
Proof. intros H. by apply (makedirs_from_below [] d [s]). Qed.

Lemma makedirs_next_version (d : Path) (fs fs' : FileSystem) :
  makedirs d fs = Ok fs' → next_version fs' d = next_version fs d.
Proof.
  intros H. unfold next_version. f_equal. apply max_version_ext. intros n.
  rewrite !elem_of_existing_versions.
  by setoid_rewrite (makedirs_children d _ fs fs' H).
Qed.

Lemma mkdir_Ok (p : Path) (fs fs' : FileSystem) :
  mkdir p fs = Ok fs' → fs !! p = None ∧ fs' = <[p := Directory]> fs.
Proof. unfold mkdir. destruct (fs !! p); [discriminate | by intros [= <-]]. Qed.

Lemma write_file_Ok (p : Path) (c : Content) (fs fs' : FileSystem) :
  write_file p c fs = Ok fs' → fs' = <[p := File c]> fs.
Proof.
  unfold write_file. destruct (fs !! p) as [[|c0]|]; [discriminate|..];
    by intros [= <-].
Qed.

Lemma string_app_inv_head (s a b : string) : s +:+ a = s +:+ b → a = b.
Proof. induction s as [|c s IH]; simpl; [done|]. intros [= H]. auto. Qed.

(** Peels the characters of [s] off an equation [s +:+ suffix = literal]
    until one side runs out. *)
Ltac exhaust_string s H :=
  repeat (destruct s as [|? s]; [discriminate H|];
          simpl in H; injection H as _ H);
  destruct s; discriminate H.

Lemma primary_name_ne_snapshot (stem : string) (format : Format) :
  stem +:+ extension format ≠ snapshot_name.
Proof.
  unfold snapshot_name. intros H.
  destruct format; simpl in H; exhaust_string stem H.
Qed.

Lemma pulse_name_ne_snapshot (stem : string) (format : Format) :
  stem +:+ pulse_suffix +:+ extension format ≠ snapshot_name.
Proof.
  unfold snapshot_name, pulse_suffix. intros H.
  destruct format; simpl in H; exhaust_string stem H.
Qed.

Lemma primary_name_ne_pulse (stem : string) (format : Format) :
  stem +:+ extension format ≠ stem +:+ pulse_suffix +:+ extension format.
Proof. intros H%string_app_inv_head. by destruct format. Qed.

Lemma child_path_ne (d : Path) (a b : string) : a ≠ b → d ++ [a] ≠ d ++ [b].
Proof. intros Hne H%app_inv_head. by injection H. Qed.

(** What a successful [construct] has done. *)
Lemma construct_Ok (format_toggle : gmap string Value → Format)
    (parameters : gmap string Value) (root : Path) (name : string)
    (fs fs' : FileSystem) (ev : ExperimentVersion) :
  construct format_toggle parameters root name fs = Ok (ev, fs') →
  ev = descriptor root name (next_version fs (root ++ [name]))
         (format_toggle parameters) ∧
  fs !! directory ev = None ∧
  fs' !! directory ev = Some Directory ∧
  fs' !! snapshot_file ev = Some (File (SnapshotDocument parameters)) ∧
  fs' !! (directory ev ++
          [(name +:+ to_string (version ev)) +:+
           extension (format_toggle parameters)])
    = Some (File (PrimaryInput parameters)) ∧
  fs' !! (directory ev ++
          [(name +:+ to_string (version ev)) +:+ pulse_suffix +:+
           extension (format_toggle parameters)])
    = Some (File (PulseInput parameters)).
Proof.
  unfold construct. intros H.
  apply Result_bind_Ok_inv in H as (fs1 & Hmk & H).
  rewrite (makedirs_next_version _ _ _ Hmk) in H.
  set (v := next_version fs (root ++ [name])) in *.
  set (vdir := (root ++ [name]) ++ [to_string v]) in *.
  set (stem := name +:+ to_string v) in *.
  apply Result_bind_Ok_inv in H as (fs2 & [Hfree ->]%mkdir_Ok & H).
  apply Result_bind_Ok_inv in H as (fs3 & ->%write_file_Ok & H).
  apply Result_bind_Ok_inv in H as (fs4 & ->%write_file_Ok & H).
  apply Result_bind_Ok_inv in H as (fs5 & ->%write_file_Ok & H).
  injection H as <- <-. simpl.
  fold v. fold vdir. fold stem.
  assert (∀ a : string, vdir ≠ vdir ++ [a]) as Hdir
    by (intros a; by apply path_extension_ne).
  split; [done|]. split.
  { unfold vdir. by rewrite <- (makedirs_children _ _ _ _ Hmk). }
  split.
  { rewrite !lookup_insert_ne by (apply not_eq_sym, Hdir).
    apply lookup_insert_eq. }
  split.
  { rewrite lookup_insert_ne
      by (apply child_path_ne, pulse_name_ne_snapshot).
    rewrite lookup_insert_ne
      by (apply child_path_ne, primary_name_ne_snapshot).
    apply lookup_insert_eq. }
  split.
  { rewrite lookup_insert_ne
      by (apply child_path_ne, not_eq_sym, primary_name_ne_pulse).
    apply lookup_insert_eq. }
  apply lookup_insert_eq.
Qed.

Section Overrides.

Variable accepts : string → Value → bool.

Lemma read_from_file_override (vdir : Path) (field : string) (x : Value)
    (fs : FileSystem) (fields : gmap string Value) :
  read_snapshot (vdir ++ [snapshot_name]) fs = Ok fields →
  accepts field x = true →
  read_from_file accepts vdir [(field, x)] fs
  = Ok (<[snapshot_key field := x]> fields).
Proof.
  intros Hread Hacc. unfold read_from_file. rewrite Hread. simpl.
  unfold apply_override. simpl. by rewrite Hacc.
Qed.

End Overrides.

(** C2: a successful [construct] allocates one plus the largest
    positive-integer-named subdirectory of the experiment directory (so the
    version exceeds every such subdirectory, and is 1 when there is none),
    and the version directory holds the snapshot and the two input files.
    On the empty workspace with experiment name "HPLF-Fe" the call yields
    version 1 with [HPLF-Fe1.<ext>], [HPLF-Fe1_intensite_impulsion.<ext>]
    and the snapshot in [HPLF-Fe/1]; the same call on the resulting
    workspace yields version 2. *)
Theorem construct_allocates_next_version
    (format_toggle : gmap string Value → Format)
    (parameters : gmap string Value) (root : Path) (name : string)
    (fs : FileSystem) :
  (∀ ev fs',
     construct format_toggle parameters root name fs = Ok (ev, fs') →
     version ev = N.succ (max_version (existing_versions fs (root ++ [name]))) ∧
     (∀ s n, fs !! ((root ++ [name]) ++ [s]) = Some Directory →
             parse_version s = Some n → (n < version ev)%N) ∧
     ((∀ s, fs !! ((root ++ [name]) ++ [s]) = Some Directory →
            parse_version s = None) → version ev = 1%N) ∧
     directory ev = (root ++ [name]) ++ [to_string (version ev)] ∧
     fs !! directory ev = None ∧
     fs' !! directory ev = Some Directory ∧
     fs' !! (directory ev ++ [snapshot_name])
       = Some (File (SnapshotDocument parameters)) ∧
     fs' !! (directory ev ++
             [(name +:+ to_string (version ev)) +:+
              extension (format_toggle parameters)])
       = Some (File (PrimaryInput parameters)) ∧
     fs' !! (directory ev ++
             [(name +:+ to_string (version ev)) +:+ pulse_suffix +:+
              extension (format_toggle parameters)])
       = Some (File (PulseInput parameters))) ∧
  construct format_toggle parameters _simdir simName (workspace [])
  = Ok (descriptor _simdir simName 1 (format_toggle parameters),
        workspace [(1%N, format_toggle parameters, parameters)]) ∧
  workspace [(1%N, format_toggle parameters, parameters)]
    !! ["Simulations"; "HPLF-Fe"; "1";
        "HPLF-Fe1" +:+ extension (format_toggle parameters)]
  = Some (File (PrimaryInput parameters)) ∧
  workspace [(1%N, format_toggle parameters, parameters)]
    !! ["Simulations"; "HPLF-Fe"; "1";
        "HPLF-Fe1_intensite_impulsion" +:+ extension (format_toggle parameters)]
  = Some (File (PulseInput parameters)) ∧
  workspace [(1%N, format_toggle parameters, parameters)]
    !! ["Simulations"; "HPLF-Fe"; "1"; "parameters.json"]
  = Some (File (SnapshotDocument parameters)) ∧
  construct format_toggle parameters _simdir simName
    (workspace [(1%N, format_toggle parameters, parameters)])
  = Ok (descriptor _simdir simName 2 (format_toggle parameters),
        workspace [(1%N, format_toggle parameters, parameters);
                   (2%N, format_toggle parameters, parameters)]).
Proof.
  split.
  - intros ev fs' H.
    apply construct_Ok in H as (Hev & Hfree & Hdir & Hsnap & Hprim & Hpulse).
    assert (version ev = next_version fs (root ++ [name])) as Hv by by rewrite Hev.
    assert (directory ev = (root ++ [name]) ++ [to_string (version ev)]) as Hd
      by by rewrite Hev.
    assert (snapshot_file ev = directory ev ++ [snapshot_name]) as Hs
      by by rewrite Hev.
    rewrite Hs in Hsnap.
    split; [done|]. split; [|split; [|done]].
    + intros s n Hsub Hparse. rewrite Hv. unfold next_version.
      apply N.lt_succ_r, max_version_ge, elem_of_existing_versions. eauto.
    + intros Hnone. rewrite Hv. unfold next_version.
      destruct (max_version_elem (existing_versions fs (root ++ [name])))
        as [->|Hin]; [done|].
      apply elem_of_existing_versions in Hin as (s & Hsub & Hparse).
      rewrite (Hnone s Hsub) in Hparse. discriminate.
  - unfold construct.
    destruct (format_toggle parameters); repeat split; vm_reflexivity.
Qed.

Lemma construct_allocates_next_version_witness :
  version (descriptor _simdir simName 2 Dat)
  = N.succ (max_version (existing_versions
                           (workspace [(1%N, Dat, test_parameters)])
                           (_simdir ++ [simName]))) ∧
  version (descriptor _simdir simName 1 Dat) = 1%N.
Proof.
  split.
  - destruct (construct_allocates_next_version (λ _, Dat) test_parameters
                _simdir simName (workspace [(1%N, Dat, test_parameters)]))
      as (H & _).
    apply (H _ (workspace [(1%N, Dat, test_parameters); (2%N, Dat, test_parameters)])).
    vm_reflexivity.
  - destruct (construct_allocates_next_version (λ _, Dat) test_parameters
                _simdir simName (workspace [])) as (H & _).
    destruct (H (descriptor _simdir simName 1 Dat)
                (workspace [(1%N, Dat, test_parameters)])) as (_ & _ & H1 & _).
    + vm_reflexivity.
    + apply H1. intros s Hs. exfalso. revert Hs. simpl.
      rewrite lookup_empty. discriminate.
Defined.

(** C1: the snapshot initializer pointed at a version directory, with the
    override [sample_thickness = x], yields that directory's snapshot with
    the one field replaced, and a [construct] of the new parameters
    persists exactly them.  In the workflow of the test, after versions 1
    and 2 were constructed from [parameters], this gives version 3, whose
    snapshot holds [x] under [sample_thickness] and agrees with the
    snapshot of version 2 on every other field. *)
Theorem override_then_construct_yields_version_3
    (format_toggle : gmap string Value → Format)
    (accepts : string → Value → bool)
    (parameters : gmap string Value) (x : Value) :
  accepts "sample_thickness" x = true →
  (∀ (fs fs' : FileSystem) (vdir root : Path) (name : string)
     (fields : gmap string Value) (ev : ExperimentVersion),
     read_snapshot (vdir ++ [snapshot_name]) fs = Ok fields →
     read_from_file accepts vdir [("sample_thickness", x)] fs
     = Ok (<[snapshot_key "sample_thickness" := x]> fields) ∧
     (construct format_toggle (<[snapshot_key "sample_thickness" := x]> fields)
        root name fs = Ok (ev, fs') →
      read_snapshot (snapshot_file ev) fs'
      = Ok (<[snapshot_key "sample_thickness" := x]> fields))) ∧
  construct format_toggle parameters _simdir simName
    (workspace [(1%N, format_toggle parameters, parameters)])
  = Ok (descriptor _simdir simName 2 (format_toggle parameters),
        workspace [(1%N, format_toggle parameters, parameters);
                   (2%N, format_toggle parameters, parameters)]) ∧
  succeeds_with
    (read_from_file accepts
       (directory (descriptor _simdir simName 2 (format_toggle parameters)))
       [("sample_thickness", x)]
       (workspace [(1%N, format_toggle parameters, parameters);
                   (2%N, format_toggle parameters, parameters)]))
    (λ new_parameters,
       new_parameters = <[snapshot_key "sample_thickness" := x]> parameters ∧
       construct format_toggle new_parameters _simdir simName
         (workspace [(1%N, format_toggle parameters, parameters);
                     (2%N, format_toggle parameters, parameters)])
       = Ok (descriptor _simdir simName 3 (format_toggle new_parameters),
             workspace [(1%N, format_toggle parameters, parameters);
                        (2%N, format_toggle parameters, parameters);
                        (3%N, format_toggle new_parameters, new_parameters)]) ∧
       read_snapshot ["Simulations"; "HPLF-Fe"; "3"; "parameters.json"]
         (workspace [(1%N, format_toggle parameters, parameters);
                     (2%N, format_toggle parameters, parameters);
                     (3%N, format_toggle new_parameters, new_parameters)])
       = Ok new_parameters ∧
       read_snapshot ["Simulations"; "HPLF-Fe"; "2"; "parameters.json"]
         (workspace [(1%N, format_toggle parameters, parameters);
                     (2%N, format_toggle parameters, parameters);
                     (3%N, format_toggle new_parameters, new_parameters)])
       = Ok parameters ∧
       new_parameters !! snapshot_key "sample_thickness" = Some x ∧
       ∀ key, key ≠ snapshot_key "sample_thickness" →
              new_parameters !! key = parameters !! key).
Proof.
  intros Hacc. split; [|split].
  - intros fs fs' vdir root name fields ev Hread. split.
    + by apply read_from_file_override.
    + intros H. apply construct_Ok in H as (_ & _ & _ & H & _).
      unfold read_snapshot. by rewrite H.
  - unfold construct. destruct (format_toggle parameters); vm_reflexivity.
  - erewrite read_from_file_override; [|  |exact Hacc].
    2:{ destruct (format_toggle parameters); vm_reflexivity. }
    simpl. split; [done|].
    split.
    { unfold construct.
      destruct (format_toggle parameters),
               (format_toggle (<[snapshot_key "sample_thickness" := x]> parameters));
        vm_reflexivity. }
    split.
    { destruct (format_toggle parameters),
               (format_toggle (<[snapshot_key "sample_thickness" := x]> parameters));
        vm_reflexivity. }
    split.
    { destruct (format_toggle parameters),
               (format_toggle (<[snapshot_key "sample_thickness" := x]> parameters));
        vm_reflexivity. }
    split; [apply lookup_insert_eq|].
    intros key Hkey. by apply lookup_insert_ne.
Qed.

Lemma override_then_construct_yields_version_3_witness :
  succeeds_with
    (read_from_file (λ _ _, true)
       (directory (descriptor _simdir simName 2 Dat))
       [("sample_thickness", VFloat (4 # 1))]
       (workspace [(1%N, Dat, test_parameters); (2%N, Dat, test_parameters)]))
    (λ new_parameters,
       version (descriptor _simdir simName 3 Dat) = 3%N ∧
       new_parameters !! snapshot_key "sample_thickness" = Some (VFloat (4 # 1)) ∧
       new_parameters !! snapshot_key "ablator" = Some (VStr "CH")).
Proof.
  destruct (override_then_construct_yields_version_3 (λ _, Dat) (λ _ _, true)
              test_parameters (VFloat (4 # 1)) eq_refl) as (_ & _ & H).
  destruct (read_from_file _ _ _ _) as [new|]; [|destruct H].
  destruct H as (-> & _ & _ & _ & Hx & Hother).
  split; [reflexivity|]. split; [exact Hx|].
  rewrite Hother; [vm_reflexivity | discriminate].
Defined.

(** * Further properties of the parameter class *)

(** ** What the setters accept and store *)

Section Setters.

Variable isfile : string → bool.
Variable DetectorGeometry_from_file : string → Exception + DetectorGeometry.

(** X1: assigning [None] to any property returns normally, in every state, and
    stores the default of that property: [False] for [calculate_Compton],
    100 for [slice_interval], 1 for the other count fields, [None]
    otherwise. *)
Theorem assigning_None_stores_default (p : Property) (σ : State) :
  ∃ σ', setter isfile DetectorGeometry_from_file p VNone σ = (Return tt, σ') ∧
        self σ' = <[storage_slot p := default_value p]> (self σ) ∧
        warnings_log σ' = warnings_log σ.
Proof.
  destruct p; eexists; (split; [reflexivity|]); split; reflexivity.
Qed.

Lemma setter_type_mismatch (p : Property) (v : Value) (σ : State) :
  gated p = false → is_None v = false →
  isinstance v (expected_types p) = false →
  setter isfile DetectorGeometry_from_file p v σ
  = (Raise (TypeMismatch v (expected_types p)), σ).
Proof.
  intros Hp Hnone Hinst.
  destruct p; try discriminate Hp; simpl in *;
    unfold sample_setter, sample_rotation_setter, calculate_Compton_setter,
      number_of_slices_setter, slice_interval_setter, pmi_start_ID_setter,
      pmi_stop_ID_setter, beam_parameters_setter, detector_geometry_setter,
      number_of_diffraction_patterns_setter;
    rewrite ?Hnone; simpl;
    (erewrite bind_Raise; [reflexivity|]);
    try (erewrite bind_Raise; [reflexivity|]);
    unfold checkAndSetInstance; rewrite Hnone; simpl in *; by rewrite Hinst.
Qed.

(** X2: a value that is neither [None] nor an instance of the classes a
    setter expects is rejected with the type mismatch of
    [checkAndSetInstance] and the state is left as it was; this holds for
    every setter other than the two that read [__sample_rotation] first. *)
Theorem wrong_type_rejected (p : Property) (v : Value) (σ : State) :
  gated p = false → is_None v = false →
  isinstance v (expected_types p) = false →
  setter isfile DetectorGeometry_from_file p v σ
  = (Raise (TypeMismatch v (expected_types p)), σ).
Proof. apply setter_type_mismatch. Qed.

End Setters.

Lemma wrong_type_rejected_witness :
  setter (λ _, false) (λ path, inl (IOError path)) p_number_of_slices
         (VFloat (2 # 1)) fresh
  = (Raise (TypeMismatch (VFloat (2 # 1)) [TInt]), fresh) ∧
  setter (λ _, false) (λ path, inl (IOError path)) p_sample (VInt 3) fresh
  = (Raise (TypeMismatch (VInt 3) [TStr]), fresh).
Proof.
  split.
  - by apply (wrong_type_rejected (λ _, false) (λ path, inl (IOError path))
                p_number_of_slices (VFloat (2 # 1)) fresh).
  - by apply (wrong_type_rejected (λ _, false) (λ path, inl (IOError path))
                p_sample (VInt 3) fresh).
Defined.

Lemma count_setter_bool (f : CountField) (b : bool) (σ : State) :
  ∃ msg,
    count_setter f (VBool b) σ
    = if lower_bound f <=? Z.b2z b
      then (Return tt, assign (count_slot f) (VBool b) σ)
      else (Raise (ValueError msg), σ).
Proof.
  destruct f, b;
    first [ exists EmptyString; reflexivity | eexists; reflexivity ].
Qed.

(** X3: a boolean passes the [int] check of the count setters, since [bool] is
    a subclass of [int]: it is compared as 0 or 1 against the bound and,
    when within it, stored as the boolean it is. *)
Theorem count_fields_take_booleans (f : CountField) (b : bool) (σ : State) :
  ∃ msg,
    count_setter f (VBool b) σ
    = if lower_bound f <=? Z.b2z b
      then (Return tt, assign (count_slot f) (VBool b) σ)
      else (Raise (ValueError msg), σ).
Proof. apply count_setter_bool. Qed.

Lemma checkAndSetInstance_Return cls v d σ w σ' :
  checkAndSetInstance cls v d σ = (Return w, σ') →
  σ' = σ ∧ w = (if is_None v then d else v) ∧
  (is_None v = false → isinstance v cls = true).
Proof.
  unfold checkAndSetInstance. destruct (is_None v).
  - intros [= <- <-]. done.
  - destruct (isinstance v cls); [|discriminate]. intros [= <- <-]. done.
Qed.

Lemma py_ne_None u : py_ne u VNone = negb (is_None u).
Proof. by destruct u. Qed.

Lemma count_setter_is_setter isfile load f v :
  setter isfile load (count_property f) v = count_setter f v.
Proof. by destruct f. Qed.

Lemma count_slot_is_storage_slot f : storage_slot (count_property f) = count_slot f.
Proof. by destruct f. Qed.

(** A count setter that returns has stored the value it was given, or the
    default for [None], and that value is within the bound. *)
Lemma count_setter_Return f v σ σ' :
  count_setter f v σ = (Return tt, σ') →
  σ' = assign (count_slot f)
         (if is_None v then default_value (count_property f) else v) σ ∧
  in_bound f (if is_None v then default_value (count_property f) else v) = true.
Proof.
  intros H.
  destruct v as [|b|z|q|s|l|l|p|g];
    try (rewrite <- (count_setter_is_setter (λ _, false) (λ x, inl (IOError x))) in H;
         rewrite setter_type_mismatch in H by (by destruct f); discriminate H).
  - destruct f; injection H as <-; done.
  - destruct (count_setter_bool f b σ) as [msg Hb]. rewrite Hb in H.
    simpl. destruct (lower_bound f <=? Z.b2z b); [|discriminate H].
    by injection H as <-.
  - destruct (count_setter_int f z σ) as [msg Hz]. rewrite Hz in H.
    simpl. destruct (lower_bound f <=? z); [|discriminate H].
    by injection H as <-.
Qed.

Section RoundTrip.

Variable isfile : string → bool.
Variable DetectorGeometry_from_file : string → Exception + DetectorGeometry.

Lemma detector_geometry_setter_by_case (path : string) (g : DetectorGeometry)
    (e : Exception) (σ : State) :
  detector_geometry_setter isfile DetectorGeometry_from_file VNone σ
  = (Return tt,
     assign __detector_geometry VNone
       (mkState (self σ) (warnings_log σ)
          (stdout σ ++
           ["WARNING: Geometry not set, calculation will most probably fail."]))) ∧
  detector_geometry_setter isfile DetectorGeometry_from_file (VGeometry g) σ
  = (Return tt, assign __detector_geometry (VGeometry g) σ) ∧
  (isfile path = true → DetectorGeometry_from_file path = inr g →
   detector_geometry_setter isfile DetectorGeometry_from_file (VStr path) σ
   = (Return tt, assign __detector_geometry (VGeometry g) σ)) ∧
  (isfile path = true → DetectorGeometry_from_file path = inl e →
   detector_geometry_setter isfile DetectorGeometry_from_file (VStr path) σ
   = (Raise e, σ)).
Proof.
  split; [reflexivity|]. split; [reflexivity|].
  split; intros Hfile Hload; unfold detector_geometry_setter, mbind, M_bind;
    simpl; rewrite Hfile; simpl; by rewrite Hload.
Qed.

(** X5: the [detector_geometry] setter, case by case: [None] is stored after
    one line is printed; a geometry object is stored as it is; the name of
    an existing file is handed to the loader of [DetectorGeometry], whose
    object is stored in place of the string, and whose exception is passed
    on with the state unchanged. *)
Theorem detector_geometry_setter_cases (path : string) (g : DetectorGeometry)
    (e : Exception) (σ : State) :
  detector_geometry_setter isfile DetectorGeometry_from_file VNone σ
  = (Return tt,
     assign __detector_geometry VNone
       (mkState (self σ) (warnings_log σ)
          (stdout σ ++
           ["WARNING: Geometry not set, calculation will most probably fail."]))) ∧
  detector_geometry_setter isfile DetectorGeometry_from_file (VGeometry g) σ
  = (Return tt, assign __detector_geometry (VGeometry g) σ) ∧
  (isfile path = true → DetectorGeometry_from_file path = inr g →
   detector_geometry_setter isfile DetectorGeometry_from_file (VStr path) σ
   = (Return tt, assign __detector_geometry (VGeometry g) σ)) ∧
  (isfile path = true → DetectorGeometry_from_file path = inl e →
   detector_geometry_setter isfile DetectorGeometry_from_file (VStr path) σ
   = (Raise e, σ)).
Proof. apply detector_geometry_setter_by_case. Qed.

Lemma detector_geometry_setter_Return v σ σ' :
  detector_geometry_setter isfile DetectorGeometry_from_file v σ = (Return tt, σ') →
  ∃ w, self σ' = <[__detector_geometry := w]> (self σ) ∧
       warnings_log σ' = warnings_log σ ∧
       (w = v ∧ (v = VNone ∨ ∃ g, v = VGeometry g) ∨
        ∃ path g, v = VStr path ∧ isfile path = true ∧
                  DetectorGeometry_from_file path = inr g ∧ w = VGeometry g).
Proof.
  destruct v as [|b|z|q|s|l|l|p|g];
    try (unfold detector_geometry_setter, mbind, M_bind; simpl; discriminate).
  - intros [= <-]. exists VNone. split; [done|]. split; [done|]. left. eauto.
  - unfold detector_geometry_setter, mbind, M_bind. simpl.
    destruct (isfile s) eqn:Hfile; simpl; [|discriminate].
    destruct (DetectorGeometry_from_file s) as [e|g] eqn:Hload; [discriminate|].
    intros [= <-]. exists (VGeometry g). split; [done|]. split; [done|].
    right. eauto 10.
  - intros [= <-]. exists (VGeometry g). split; [done|]. split; [done|].
    left. eauto.
Qed.

(** A [rotation_quaternion] assignment that returns has stored the value it
    was given. *)
Lemma rotation_quaternion_setter_Return v σ σ' :
  rotation_quaternion_setter v σ = (Return tt, σ') →
  self σ' !! __rotation_quaternion = Some v.
Proof.
  unfold rotation_quaternion_setter. destruct (is_None v) eqn:Hv; simpl.
  - destruct v; try discriminate Hv. intros [= <-]. apply lookup_insert_eq.
  - intros H.
    apply bind_Return_inv in H as (sr & σ1 & _ & H).
    apply bind_Return_inv in H as (? & σ2 & _ & H).
    apply bind_Return_inv in H as (ur & σ3 & _ & H).
    apply bind_Return_inv in H as (? & σ4 & _ & H).
    apply bind_Return_inv in H as (w & σ5 & Hc & H).
    injection H as <-.
    unfold checkAndSetInstance in Hc. rewrite Hv in Hc.
    destruct (isinstance v [TList; TTuple]); [|discriminate Hc].
    injection Hc as <- <-. apply lookup_insert_eq.
Qed.

(** Following the [rotation_quaternion] query for any number of nested
    calls only gets deeper. *)
Lemma rotation_quaternion_from_StillRunning depth fuel σ :
  rotation_quaternion_from depth fuel σ = StillRunning (depth + fuel)%nat.
Proof.
  revert depth. induction fuel as [|fuel IH]; intros depth; simpl.
  - by rewrite Nat.add_0_r.
  - rewrite IH. f_equal. lia.
Qed.

(** What a setter that returns has stored: the value given, the default
    for [None], or, for [detector_geometry] given the name of an existing
    file, the object the loader made of it. *)
Lemma setter_Return (p : Property) (v : Value) (σ σ' : State) :
  setter isfile DetectorGeometry_from_file p v σ = (Return tt, σ') →
  ∃ w, self σ' !! storage_slot p = Some w ∧
       (w = (if is_None v then default_value p else v) ∨
        p = p_detector_geometry ∧
        ∃ path g, v = VStr path ∧ isfile path = true ∧
                  DetectorGeometry_from_file path = inr g ∧ w = VGeometry g).
Proof.
  intros Hset. destruct p; simpl in Hset; simpl storage_slot; simpl default_value.
  - exists v. split; [|left; by destruct v].
    unfold sample_setter in Hset. split_binds Hset.
    injection Hset as <-. simpl.
    assert (x = v) as ->.
    { destruct (is_None v) eqn:Hv; simpl in E.
      - by injection E as <-.
      - apply checkAndSetInstance_Return in E as (_ & -> & _). by rewrite Hv. }
    apply lookup_insert_eq.
  - apply sample_rotation_setter_Return in Hset as ->.
    exists v. split; [|left; by destruct v]. apply lookup_insert_eq.
  - apply rotation_quaternion_setter_Return in Hset.
    exists v. split; [done | left; by destruct v].
  - apply uniform_rotation_setter_Return in Hset.
    exists v. split; [done | left; by destruct v].
  - unfold calculate_Compton_setter in Hset. split_binds Hset.
    apply checkAndSetInstance_Return in E as (-> & -> & _).
    injection Hset as <-. eexists. split; [|by left]. apply lookup_insert_eq.
  - apply (count_setter_Return NumberOfSlices) in Hset as [-> _].
    eexists. split; [|by left]. apply lookup_insert_eq.
  - apply (count_setter_Return SliceInterval) in Hset as [-> _].
    eexists. split; [|by left]. apply lookup_insert_eq.
  - apply (count_setter_Return PmiStartID) in Hset as [-> _].
    eexists. split; [|by left]. apply lookup_insert_eq.
  - apply (count_setter_Return PmiStopID) in Hset as [-> _].
    eexists. split; [|by left]. apply lookup_insert_eq.
  - apply beam_parameters_setter_Return in Hset as [-> Hv].
    exists v. split; [apply lookup_insert_eq|].
    left. by destruct Hv as [->|[b ->]].
  - apply detector_geometry_setter_Return in Hset as (w & Hself & _ & Hw).
    exists w. split; [rewrite Hself; apply lookup_insert_eq|].
    destruct Hw as [[-> Hv]|Hload]; [left; by destruct Hv as [->|[g ->]] | by right].
  - apply (count_setter_Return NumberOfDiffractionPatterns) in Hset as [-> _].
    eexists. split; [|by left]. apply lookup_insert_eq.
Qed.

(** X4: a setter that returns has stored, in the attribute of its property,
    the value given, the default for [None], or, for [detector_geometry]
    given the name of an existing file, the object the loader made of it;
    no setter converts or clamps a value.  The query of the property
    returns that stored value next, for every property but
    [rotation_quaternion]: there the value is stored as well, and the query,
    which calls itself, is still running after any number of nested
    calls. *)
Theorem query_returns_what_was_set (p : Property) (v : Value) (σ σ' : State) :
  setter isfile DetectorGeometry_from_file p v σ = (Return tt, σ') →
  ∃ w, self σ' !! storage_slot p = Some w ∧
       (w = (if is_None v then default_value p else v) ∨
        p = p_detector_geometry ∧
        ∃ path g, v = VStr path ∧ isfile path = true ∧
                  DetectorGeometry_from_file path = inr g ∧ w = VGeometry g) ∧
       match query p with
       | Some q => q σ' = (Return w, σ')
       | None => p = p_rotation_quaternion ∧
                 ∀ fuel, rotation_quaternion fuel σ' = StillRunning fuel
       end.
Proof.
  intros Hset. destruct (setter_Return p v σ σ' Hset) as (w & Hw & Hval).
  exists w. split; [exact Hw|]. split; [exact Hval|].
  destruct p; simpl in Hw |- *;
    try (unfold sample, sample_rotation, uniform_rotation, calculate_Compton,
           number_of_slices, slice_interval, pmi_start_ID, pmi_stop_ID,
           beam_parameters, detector_geometry, number_of_diffraction_patterns,
           getattr; by rewrite Hw).
  split; [reflexivity|]. intros fuel.
  unfold rotation_quaternion. apply rotation_quaternion_from_StillRunning.
Qed.

End RoundTrip.

Lemma detector_geometry_setter_cases_witness :
  detector_geometry_setter (λ _, true) (λ _, inr (DetectorGeometryObject 7))
    (VStr "detector.geom") fresh
  = (Return tt,
     assign __detector_geometry (VGeometry (DetectorGeometryObject 7)) fresh) ∧
  detector_geometry_setter (λ _, true) (λ path, inl (IOError path))
    (VStr "detector.geom") fresh
  = (Raise (IOError "detector.geom"), fresh).
Proof.
  split.
  - destruct (detector_geometry_setter_cases (λ _, true)
                (λ _, inr (DetectorGeometryObject 7)) "detector.geom"
                (DetectorGeometryObject 7) (IOError "detector.geom") fresh)
      as (_ & _ & H & _).
    by apply H.
  - destruct (detector_geometry_setter_cases (λ _, true)
                (λ path, inl (IOError path)) "detector.geom"
                (DetectorGeometryObject 7) (IOError "detector.geom") fresh)
      as (_ & _ & _ & H).
    by apply H.
Defined.

Lemma query_returns_what_was_set_witness :
  (∃ w, self (slice_interval_setter (VInt 250) fresh).2 !! __slice_interval
        = Some w ∧
        (w = VInt 250 ∨
         p_slice_interval = p_detector_geometry ∧
         ∃ path g, VInt 250 = VStr path ∧ (λ _ : string, false) path = true ∧
                   (λ x : string, @inl Exception DetectorGeometry (IOError x)) path
                   = inr g ∧ w = VGeometry g) ∧
        slice_interval (slice_interval_setter (VInt 250) fresh).2
        = (Return w, (slice_interval_setter (VInt 250) fresh).2)) ∧
  (∃ w, self (rotation_quaternion_setter VNone fresh).2 !! __rotation_quaternion
        = Some w ∧
        (w = VNone ∨
         p_rotation_quaternion = p_detector_geometry ∧
         ∃ path g, VNone = VStr path ∧ (λ _ : string, false) path = true ∧
                   (λ x : string, @inl Exception DetectorGeometry (IOError x)) path
                   = inr g ∧ w = VGeometry g) ∧
        p_rotation_quaternion = p_rotation_quaternion ∧
        ∀ fuel, rotation_quaternion fuel (rotation_quaternion_setter VNone fresh).2
                = StillRunning fuel).
Proof.
  split.
  - apply (query_returns_what_was_set (λ _, false) (λ x, inl (IOError x))
             p_slice_interval (VInt 250) fresh
             (slice_interval_setter (VInt 250) fresh).2).
    reflexivity.
  - apply (query_returns_what_was_set (λ _, false) (λ x, inl (IOError x))
             p_rotation_quaternion VNone fresh
             (rotation_quaternion_setter VNone fresh).2).
    reflexivity.
Defined.


(** ** The rotation setters on an instance that has [__sample_rotation] *)

(** No method assigns [__sample_rotation], but name mangling does not keep
    a client or a subclass from creating the attribute; the lemmas below
    say what the two rotation setters do once it exists. *)

Lemma getattr_Some name v σ :
  self σ !! name = Some v → getattr name σ = (Return v, σ).
Proof. intros H. unfold getattr. by rewrite H. Qed.

Lemma getattr_None name σ :
  self σ !! name = None → getattr name σ = (Raise (AttributeError name), σ).
Proof. intros H. unfold getattr. by rewrite H. Qed.

(** X6: with [__sample_rotation] equal to [True], assigning a list or a tuple
    to [rotation_quaternion] returns and stores it; when [uniform_rotation]
    holds a value other than [None], that value is cleared and exactly one
    warning is logged before.  The same holds with the two properties
    exchanged, for a boolean assigned to [uniform_rotation]. *)
Theorem rotation_setters_resolve_conflict (s u r v : Value) (σ : State) :
  self σ !! __sample_rotation = Some s → py_eq s (VBool true) = true →
  (self σ !! __uniform_rotation = Some u →
   isinstance v [TList; TTuple] = true →
   rotation_quaternion_setter v σ
   = (Return tt,
      assign __rotation_quaternion v
        (if is_None u then σ
         else assign __uniform_rotation VNone
                (mkState (self σ)
                   (warnings_log σ ++
                    ["'uniform_rotation' will be overrided by 'rotation_quaternion'"])
                   (stdout σ))))) ∧
  (self σ !! __rotation_quaternion = Some r →
   isinstance v [TBool] = true →
   uniform_rotation_setter v σ
   = (Return tt,
      assign __uniform_rotation v
        (if is_None r then σ
         else assign __rotation_quaternion VNone
                (mkState (self σ)
                   (warnings_log σ ++
                    ["'rotation_quaternion' will be overrided by 'uniform_rotation'"])
                   (stdout σ))))).
Proof.
  intros Hs Htrue.
  assert (py_ne s (VBool true) = false) as Hne by (unfold py_ne; by rewrite Htrue).
  split; intros Hother Hinst.
  - assert (is_None v = false) as Hv by by destruct v.
    unfold rotation_quaternion_setter. rewrite Hv. simpl.
    erewrite bind_Return by (by apply getattr_Some). cbv beta.
    rewrite Hne. simpl.
    erewrite (bind_Return (mret tt)) by reflexivity. cbv beta.
    erewrite bind_Return by (by apply getattr_Some). cbv beta.
    rewrite py_ne_None.
    destruct (is_None u); simpl.
    + erewrite (bind_Return (mret tt)) by reflexivity. cbv beta.
      unfold checkAndSetInstance. rewrite Hv, Hinst. reflexivity.
    + unfold mbind, M_bind. simpl.
      unfold checkAndSetInstance. rewrite Hv, Hinst. reflexivity.
  - assert (is_None v = false) as Hv by by destruct v.
    unfold uniform_rotation_setter. rewrite Hv. simpl.
    erewrite bind_Return by (by apply getattr_Some). cbv beta.
    rewrite Hne. simpl.
    erewrite (bind_Return (mret tt)) by reflexivity. cbv beta.
    erewrite bind_Return by (by apply getattr_Some). cbv beta.
    rewrite py_ne_None.
    destruct (is_None r); simpl.
    + erewrite (bind_Return (mret tt)) by reflexivity. cbv beta.
      unfold checkAndSetInstance. rewrite Hv, Hinst. reflexivity.
    + unfold mbind, M_bind. simpl.
      unfold checkAndSetInstance. rewrite Hv, Hinst. reflexivity.
Qed.

Lemma rotation_setters_resolve_conflict_witness :
  rotation_quaternion_setter (VList [VInt 1; VInt 0; VInt 0; VInt 0])
    (assign __sample_rotation (VBool true)
       (assign __uniform_rotation (VBool true) fresh))
  = (Return tt,
     assign __rotation_quaternion (VList [VInt 1; VInt 0; VInt 0; VInt 0])
       (assign __uniform_rotation VNone
          (mkState
             (self (assign __sample_rotation (VBool true)
                      (assign __uniform_rotation (VBool true) fresh)))
             ["'uniform_rotation' will be overrided by 'rotation_quaternion'"]
             []))) ∧
  uniform_rotation_setter (VBool false)
    (assign __sample_rotation (VBool true)
       (assign __rotation_quaternion VNone fresh))
  = (Return tt,
     assign __uniform_rotation (VBool false)
       (assign __sample_rotation (VBool true)
          (assign __rotation_quaternion VNone fresh))).
Proof.
  split.
  - destruct (rotation_setters_resolve_conflict (VBool true) (VBool true) VNone
                (VList [VInt 1; VInt 0; VInt 0; VInt 0])
                (assign __sample_rotation (VBool true)
                   (assign __uniform_rotation (VBool true) fresh))
                eq_refl eq_refl) as [H _].
    apply H; reflexivity.
  - destruct (rotation_setters_resolve_conflict (VBool true) VNone VNone
                (VBool false)
                (assign __sample_rotation (VBool true)
                   (assign __rotation_quaternion VNone fresh))
                eq_refl eq_refl) as [_ H].
    apply H; reflexivity.
Defined.

(** X7: with a [__sample_rotation] that does not equal [True], assigning any
    value other than [None] to a rotation property raises the [ValueError]
    of the setter and leaves the state as it was. *)
Theorem rotation_setters_refuse_without_rotation (s v : Value) (σ : State) :
  self σ !! __sample_rotation = Some s → py_eq s (VBool true) = false →
  is_None v = false →
  rotation_quaternion_setter v σ
  = (Raise (ValueError
      "'rotation_quaternion' is not set since 'sample_rotation' is not True."), σ) ∧
  uniform_rotation_setter v σ
  = (Raise (ValueError
      "'uniform_rotation' is not set since 'sample_rotation' is not True."), σ).
Proof.
  intros Hs Hfalse Hv.
  assert (py_ne s (VBool true) = true) as Hne by (unfold py_ne; by rewrite Hfalse).
  unfold rotation_quaternion_setter, uniform_rotation_setter.
  rewrite Hv. simpl.
  split; (erewrite bind_Return by (by apply getattr_Some)); cbv beta;
    rewrite Hne; reflexivity.
Qed.

Lemma rotation_setters_refuse_without_rotation_witness :
  rotation_quaternion_setter (VList [])
    (assign __sample_rotation (VBool false) fresh)
  = (Raise (ValueError
      "'rotation_quaternion' is not set since 'sample_rotation' is not True."),
     assign __sample_rotation (VBool false) fresh) ∧
  uniform_rotation_setter (VBool true)
    (assign __sample_rotation (VBool false) fresh)
  = (Raise (ValueError
      "'uniform_rotation' is not set since 'sample_rotation' is not True."),
     assign __sample_rotation (VBool false) fresh).
Proof.
  split.
  - by apply (rotation_setters_refuse_without_rotation (VBool false) (VList [])
                (assign __sample_rotation (VBool false) fresh)).
  - by apply (rotation_setters_refuse_without_rotation (VBool false) (VBool true)
                (assign __sample_rotation (VBool false) fresh)).
Defined.

(** X8: the rotation setters clear the other property before they check the
    type of the new value: with [__sample_rotation] equal to [True] and
    [uniform_rotation] set, assigning a value that is neither a list nor a
    tuple to [rotation_quaternion] raises the type mismatch, and yet
    [uniform_rotation] has been cleared and the warning logged. *)
Theorem rotation_quaternion_setter_clears_before_type_check
    (s u v : Value) (σ : State) :
  self σ !! __sample_rotation = Some s → py_eq s (VBool true) = true →
  self σ !! __uniform_rotation = Some u → is_None u = false →
  is_None v = false → isinstance v [TList; TTuple] = false →
  rotation_quaternion_setter v σ
  = (Raise (TypeMismatch v [TList; TTuple]),
     assign __uniform_rotation VNone
       (mkState (self σ)
          (warnings_log σ ++
           ["'uniform_rotation' will be overrided by 'rotation_quaternion'"])
          (stdout σ))).
Proof.
  intros Hs Htrue Hu Hnone Hv Hinst.
  assert (py_ne s (VBool true) = false) as Hne by (unfold py_ne; by rewrite Htrue).
  unfold rotation_quaternion_setter. rewrite Hv. simpl.
  erewrite bind_Return by (by apply getattr_Some). cbv beta.
  rewrite Hne. simpl.
  erewrite (bind_Return (mret tt)) by reflexivity. cbv beta.
  erewrite bind_Return by (by apply getattr_Some). cbv beta.
  rewrite py_ne_None, Hnone. simpl.
  unfold mbind, M_bind. simpl.
  unfold checkAndSetInstance. rewrite Hv, Hinst. reflexivity.
Qed.

Lemma rotation_quaternion_setter_clears_before_type_check_witness :
  (rotation_quaternion_setter (VInt 5)
     (assign __sample_rotation (VBool true)
        (assign __uniform_rotation (VBool true) fresh))).1
  = Raise (TypeMismatch (VInt 5) [TList; TTuple]) ∧
  self (rotation_quaternion_setter (VInt 5)
          (assign __sample_rotation (VBool true)
             (assign __uniform_rotation (VBool true) fresh))).2
    !! __uniform_rotation = Some VNone.
Proof.
  rewrite (rotation_quaternion_setter_clears_before_type_check
             (VBool true) (VBool true) (VInt 5)
             (assign __sample_rotation (VBool true)
                (assign __uniform_rotation (VBool true) fresh)));
    try reflexivity.
  split; reflexivity.
Defined.

(** ** One attribute behind [sample_rotation] and [uniform_rotation] *)

(** The [sample_rotation] setter on any value and any instance: [None] and
    booleans are stored in [__uniform_rotation] as they are, anything else
    is refused. *)
Lemma sample_rotation_setter_total v σ :
  sample_rotation_setter v σ
  = if is_None v || isinstance v [TBool]
    then (Return tt, assign __uniform_rotation v σ)
    else (Raise (TypeMismatch v [TBool]), σ).
Proof. by destruct v. Qed.

(** On an instance whose [__sample_rotation] equals [True] and that has a
    [__rotation_quaternion] attribute, assigning a boolean to
    [uniform_rotation] returns. *)
Lemma uniform_rotation_setter_gated_Return s r v σ :
  self σ !! __sample_rotation = Some s → py_eq s (VBool true) = true →
  self σ !! __rotation_quaternion = Some r →
  isinstance v [TBool] = true →
  ∃ σ', uniform_rotation_setter v σ = (Return tt, σ').
Proof.
  intros Hs Htrue Hr Hinst.
  assert (py_ne s (VBool true) = false) as Hne by (unfold py_ne; by rewrite Htrue).
  assert (is_None v = false) as Hv by by destruct v.
  unfold uniform_rotation_setter. rewrite Hv. simpl.
  erewrite bind_Return by (by apply getattr_Some). cbv beta.
  rewrite Hne. simpl.
  erewrite (bind_Return (mret tt)) by reflexivity. cbv beta.
  erewrite bind_Return by (by apply getattr_Some). cbv beta.
  rewrite py_ne_None.
  destruct (is_None r); simpl.
  - erewrite (bind_Return (mret tt)) by reflexivity. cbv beta.
    unfold checkAndSetInstance. rewrite Hv, Hinst. eexists. reflexivity.
  - unfold mbind, M_bind. simpl.
    unfold checkAndSetInstance. rewrite Hv, Hinst. eexists. reflexivity.
Qed.

(** C9: the [sample_rotation] and [uniform_rotation] queries read one and
    the same attribute, [__uniform_rotation].  Assigning [None] or a
    boolean to [sample_rotation] always returns and stores the value there
    (any other value is refused), and [uniform_rotation] returns it next.
    Assigning [None] to [uniform_rotation] always returns, assigning a
    boolean returns on an instance whose [__sample_rotation] equals [True]
    and that has [__rotation_quaternion], and after every assignment to
    [uniform_rotation] that returns [sample_rotation] returns the value
    assigned.  No call into the class ever creates a [__sample_rotation]
    attribute of its own. *)
Theorem sample_rotation_shares_uniform_rotation_slot
    (isfile : string → bool)
    (DetectorGeometry_from_file : string → Exception + DetectorGeometry) :
  (∀ σ, sample_rotation σ = uniform_rotation σ) ∧
  (∀ v σ, sample_rotation_setter v σ
          = if is_None v || isinstance v [TBool]
            then (Return tt, assign __uniform_rotation v σ)
            else (Raise (TypeMismatch v [TBool]), σ)) ∧
  (∀ v σ, uniform_rotation (assign __uniform_rotation v σ)
          = (Return v, assign __uniform_rotation v σ)) ∧
  (∀ v σ σ', sample_rotation_setter v σ = (Return tt, σ') →
             uniform_rotation σ' = (Return v, σ')) ∧
  (∀ σ, uniform_rotation_setter VNone σ
        = (Return tt, assign __uniform_rotation VNone σ)) ∧
  (∀ s r v σ,
     self σ !! __sample_rotation = Some s → py_eq s (VBool true) = true →
     self σ !! __rotation_quaternion = Some r →
     isinstance v [TBool] = true →
     ∃ σ', uniform_rotation_setter v σ = (Return tt, σ')) ∧
  (∀ v σ σ', uniform_rotation_setter v σ = (Return tt, σ') →
             sample_rotation σ' = (Return v, σ')) ∧
  (∀ calls σ, self σ !! __sample_rotation = None →
     self (after isfile DetectorGeometry_from_file calls σ) !! __sample_rotation
     = None).
Proof.
  assert (∀ v σ, uniform_rotation (assign __uniform_rotation v σ)
                 = (Return v, assign __uniform_rotation v σ)) as Hread.
  { intros v σ. unfold uniform_rotation, getattr, assign. simpl.
    by rewrite lookup_insert_eq. }
  split; [reflexivity|]. split; [apply sample_rotation_setter_total|].
  split; [exact Hread|]. split; [|split; [reflexivity|split; [|split]]].
  - intros v σ σ' H. apply sample_rotation_setter_Return in H as ->.
    apply Hread.
  - apply uniform_rotation_setter_gated_Return.
  - intros v σ σ' H. apply uniform_rotation_setter_Return in H.
    unfold sample_rotation, getattr. by rewrite H.
  - intros calls σ H. rewrite after_preserves; [done|].
    apply sample_rotation_never_assigned.
Qed.

Lemma sample_rotation_shares_uniform_rotation_slot_witness :
  sample_rotation_setter (VBool true) fresh
  = (Return tt, assign __uniform_rotation (VBool true) fresh) ∧
  uniform_rotation (sample_rotation_setter (VBool true) fresh).2
  = (Return (VBool true), (sample_rotation_setter (VBool true) fresh).2) ∧
  sample_rotation (uniform_rotation_setter VNone fresh).2
  = (Return VNone, (uniform_rotation_setter VNone fresh).2) ∧
  (∃ σ', uniform_rotation_setter (VBool false)
           (assign __sample_rotation (VBool true)
              (assign __rotation_quaternion VNone fresh))
         = (Return tt, σ') ∧
         sample_rotation σ' = (Return (VBool false), σ')) ∧
  self (after (λ _, false) (λ path, inl (IOError path))
          [InitFields no_args; Assign p_sample_rotation (VBool true)] fresh)
    !! __sample_rotation = None.
Proof.
  destruct (sample_rotation_shares_uniform_rotation_slot
              (λ _, false) (λ path, inl (IOError path)))
    as (_ & Hset & _ & Hsample & _ & Hgated & Huniform & Hnever).
  split; [|split; [|split; [|split]]].
  - exact (Hset (VBool true) fresh).
  - apply (Hsample (VBool true) fresh). reflexivity.
  - apply (Huniform VNone fresh). reflexivity.
  - destruct (Hgated (VBool true) VNone (VBool false)
                (assign __sample_rotation (VBool true)
                   (assign __rotation_quaternion VNone fresh)))
      as [σ' Hrun]; [reflexivity..|].
    exists σ'. split; [exact Hrun|]. exact (Huniform _ _ _ Hrun).
  - apply Hnever. reflexivity.
Defined.

(** ** Invariants of the instance *)

Lemma steady_ret {A} (a : A) : steady (mret a).
Proof. by intros σ. Qed.

Lemma steady_raise {A} e : steady (@raise A e).
Proof. by intros σ. Qed.

Lemma steady_getattr name : steady (getattr name).
Proof. intros σ. unfold getattr. by destruct (self σ !! name). Qed.

Lemma steady_subscript d key : steady (subscript d key).
Proof. unfold subscript. destruct (d !! key); [apply steady_ret | apply steady_raise]. Qed.

Lemma steady_checkAndSetInstance cls v d : steady (checkAndSetInstance cls v d).
Proof.
  unfold checkAndSetInstance. destruct (is_None v); [apply steady_ret|].
  destruct (isinstance v cls); [apply steady_ret | apply steady_raise].
Qed.

Lemma steady_py_gt_0 v : steady (py_gt_0 v).
Proof. unfold py_gt_0. destruct (as_number v); [apply steady_ret | apply steady_raise]. Qed.

Lemma steady_py_ge_0 v : steady (py_ge_0 v).
Proof. unfold py_ge_0. destruct (as_number v); [apply steady_ret | apply steady_raise]. Qed.

Lemma steady_bind {A B} (m : M A) (f : A → M B) :
  steady m → (∀ a, steady (f a)) → steady (m ≫= f).
Proof.
  intros Hm Hf σ. unfold mbind, M_bind. specialize (Hm σ).
  destruct (m σ) as [[a|e] σ1]; simpl in *; subst; [apply Hf | done].
Qed.

Create HintDb steady.
#[local] Hint Resolve steady_ret steady_raise steady_getattr steady_subscript
  steady_checkAndSetInstance steady_py_gt_0 steady_py_ge_0 : steady.

Lemma atomic_steady {A} (m : M A) : steady m → atomic m.
Proof. intros Hm σ e σ' H. specialize (Hm σ). by rewrite H in Hm. Qed.

Lemma atomic_setattr name v : atomic (setattr name v).
Proof. intros σ e σ'. discriminate. Qed.

Lemma atomic_bind {A B} (m : M A) (f : A → M B) :
  steady m → (∀ a, atomic (f a)) → atomic (m ≫= f).
Proof.
  intros Hm Hf σ e σ'. unfold mbind, M_bind. specialize (Hm σ).
  destruct (m σ) as [[a|e0] σ1]; simpl in *; subst.
  - apply Hf.
  - by intros [= _ <-].
Qed.

(** Closes [steady] and [atomic] goals along binds and conditionals. *)
Ltac steadiness :=
  repeat first
    [ solve [auto with steady]
    | apply steady_bind; [| intros ?]
    | match goal with
      | |- steady (if ?b then _ else _) => destruct b
      | |- steady (match ?x with _ => _ end) => destruct x
      end ].

Ltac atomicity :=
  repeat first
    [ apply atomic_setattr
    | apply atomic_steady; solve [steadiness]
    | apply atomic_bind; [solve [steadiness] | intros ?]
    | match goal with
      | |- atomic (if ?b then _ else _) => destruct b
      | |- atomic (match ?x with _ => _ end) => destruct x
      end ].

Section Invariant.

Variable isfile : string → bool.
Variable DetectorGeometry_from_file : string → Exception + DetectorGeometry.

(** An invariant that implies the absence of [__sample_rotation] and that
    assignments to the attributes in [ks] and printing keep. *)
Variable I : State → Prop.
Variable ks : list string.
Hypothesis I_gate : ∀ σ, I σ → self σ !! __sample_rotation = None.
Hypothesis I_assign : ∀ name v σ, name ∈ ks → I σ → I (assign name v σ).
Hypothesis I_print : ∀ line σ, I σ → I (print line σ).2.
Hypothesis I_slots : constructor_slots ⊆ ks.

Lemma preserves_steady {A} (m : M A) : steady m → preserves I m.
Proof. intros Hm σ HI. by rewrite Hm. Qed.

Lemma preserves_bind {A B} (m : M A) (f : A → M B) :
  preserves I m → (∀ a, preserves I (f a)) → preserves I (m ≫= f).
Proof.
  intros Hm Hf σ HI. unfold mbind, M_bind. specialize (Hm σ HI).
  destruct (m σ) as [[a|e] σ1]; simpl in *; [by apply Hf | done].
Qed.

Lemma preserves_setattr name v : name ∈ ks → preserves I (setattr name v).
Proof. intros Hin σ HI. by apply I_assign. Qed.

Lemma preserves_print line : preserves I (print line).
Proof. intros σ HI. by apply I_print. Qed.

Ltac invariant :=
  repeat first
    [ apply preserves_setattr; apply I_slots; solve [in_list]
    | apply preserves_print
    | apply preserves_steady; solve [steadiness]
    | apply preserves_bind; [| intros ?]
    | match goal with
      | |- preserves _ (if ?b then _ else _) => destruct b
      | |- preserves _ (match ?x with _ => _ end) => destruct x
      end ].

Lemma preserves_uniform_rotation_setter v :
  preserves I (uniform_rotation_setter v).
Proof.
  intros σ HI. destruct (is_None v) eqn:Hv.
  - destruct v; try discriminate Hv. apply I_assign; [|done].
    apply I_slots. in_list.
  - destruct (rotation_setters_need_sample_rotation v σ (I_gate σ HI) Hv)
      as [_ ->]. done.
Qed.

Lemma preserves_rotation_quaternion_setter v :
  __rotation_quaternion ∈ ks → preserves I (rotation_quaternion_setter v).
Proof.
  intros Hin σ HI. destruct (is_None v) eqn:Hv.
  - destruct v; try discriminate Hv. by apply I_assign.
  - destruct (rotation_setters_need_sample_rotation v σ (I_gate σ HI) Hv)
      as [-> _]. done.
Qed.

Lemma preserves_setter p v :
  (p = p_rotation_quaternion → __rotation_quaternion ∈ ks) →
  preserves I (setter isfile DetectorGeometry_from_file p v).
Proof.
  intros Hrq. destruct p; simpl;
    try apply preserves_uniform_rotation_setter;
    try (by apply preserves_rotation_quaternion_setter, Hrq);
    unfold sample_setter, sample_rotation_setter, calculate_Compton_setter,
      number_of_slices_setter, slice_interval_setter, pmi_start_ID_setter,
      pmi_stop_ID_setter, beam_parameters_setter, detector_geometry_setter,
      number_of_diffraction_patterns_setter;
    invariant.
Qed.

Lemma preserves_init_fields a :
  preserves I (init_fields isfile DetectorGeometry_from_file a).
Proof.
  unfold init_fields.
  destruct (arg_parameters_dictionary a);
    repeat first
      [ apply preserves_uniform_rotation_setter
      | apply (preserves_setter p_sample); discriminate
      | apply (preserves_setter p_calculate_Compton); discriminate
      | apply (preserves_setter p_slice_interval); discriminate
      | apply (preserves_setter p_number_of_slices); discriminate
      | apply (preserves_setter p_pmi_start_ID); discriminate
      | apply (preserves_setter p_pmi_stop_ID); discriminate
      | apply (preserves_setter p_beam_parameters); discriminate
      | apply (preserves_setter p_detector_geometry); discriminate
      | apply (preserves_setter p_number_of_diffraction_patterns); discriminate
      | apply preserves_steady; apply steady_subscript
      | apply preserves_bind; [| intros ?] ].
Qed.

Lemma preserves_call m :
  __rotation_quaternion ∈ ks → __cpus_per_task_default ∈ ks →
  preserves I (call isfile DetectorGeometry_from_file m).
Proof.
  intros Hrq Hcpus. destruct m; simpl.
  - by apply preserves_setter.
  - apply preserves_init_fields.
  - by apply preserves_setattr.
Qed.

Lemma preserves_after calls σ :
  __rotation_quaternion ∈ ks → __cpus_per_task_default ∈ ks →
  I σ → I (after isfile DetectorGeometry_from_file calls σ).
Proof.
  intros Hrq Hcpus. revert σ.
  induction calls as [|m calls IH]; intros σ HI; [done|].
  change (after isfile DetectorGeometry_from_file (m :: calls) σ)
    with (after isfile DetectorGeometry_from_file calls
            (call isfile DetectorGeometry_from_file m σ).2).
  apply IH. by apply preserves_call.
Qed.

End Invariant.

Lemma not_sample_rotation name :
  name ∈ assigned_attributes → name ≠ __sample_rotation.
Proof. intros Hin ->. by apply sample_rotation_never_assigned. Qed.

Lemma constructor_slots_assigned : constructor_slots ⊆ assigned_attributes.
Proof. list_incl. Qed.

Lemma after_keeps_warnings
    (isfile : string → bool)
    (DetectorGeometry_from_file : string → Exception + DetectorGeometry)
    (calls : list Method) (σ : State) :
  self σ !! __sample_rotation = None →
  warnings_log (after isfile DetectorGeometry_from_file calls σ) = warnings_log σ.
Proof.
  intros Hgate.
  apply (preserves_after isfile DetectorGeometry_from_file
           (λ σ', self σ' !! __sample_rotation = None ∧
                  warnings_log σ' = warnings_log σ)
           assigned_attributes).
  - by intros σ' [H _].
  - intros name v σ' Hin [H1 H2]. split; [|done].
    simpl. rewrite lookup_insert_ne; [done|]. by apply not_sample_rotation.
  - by intros line σ' [H1 H2].
  - apply constructor_slots_assigned.
  - in_list.
  - in_list.
  - done.
Qed.

(** X9: whatever is called on an instance that has no [__sample_rotation]
    attribute, in whatever order and whether or not the calls raise, no
    warning is ever logged: the two [warnings.warn] calls of the rotation
    setters sit behind the read of [__sample_rotation]. *)
Theorem no_call_ever_warns
    (isfile : string → bool)
    (DetectorGeometry_from_file : string → Exception + DetectorGeometry)
    (calls : list Method) (σ : State) :
  self σ !! __sample_rotation = None →
  warnings_log (after isfile DetectorGeometry_from_file calls σ) = warnings_log σ.
Proof. apply after_keeps_warnings. Qed.

Lemma no_call_ever_warns_witness :
  warnings_log
    (after (λ _, false) (λ path, inl (IOError path))
       [ InitFields no_args; Assign p_sample_rotation (VBool true);
         Assign p_rotation_quaternion (VList [VInt 1; VInt 0; VInt 0; VInt 0]);
         Assign p_uniform_rotation (VBool false) ]
       fresh)
  = warnings_log fresh.
Proof.
  apply (no_call_ever_warns (λ _, false) (λ path, inl (IOError path))).
  reflexivity.
Defined.

(** X10: the initializer never creates [__rotation_quaternion], so on an
    instance it has built the [uniform_rotation] setter cannot even pass
    its second read: with [__sample_rotation] made [True] from outside, a
    value other than [None] raises [AttributeError] for
    [__rotation_quaternion] and nothing changes. *)
Theorem uniform_rotation_needs_rotation_quaternion_attribute
    (isfile : string → bool)
    (DetectorGeometry_from_file : string → Exception + DetectorGeometry)
    (a : InitArgs) (s v : Value) (σ : State) :
  self σ !! __sample_rotation = None →
  self σ !! __rotation_quaternion = None →
  py_eq s (VBool true) = true → is_None v = false →
  self (init_fields isfile DetectorGeometry_from_file a σ).2
    !! __rotation_quaternion = None ∧
  uniform_rotation_setter v
    (assign __sample_rotation s
       (init_fields isfile DetectorGeometry_from_file a σ).2)
  = (Raise (AttributeError __rotation_quaternion),
     assign __sample_rotation s
       (init_fields isfile DetectorGeometry_from_file a σ).2).
Proof.
  intros Hgate Hrq Htrue Hv.
  assert (self (init_fields isfile DetectorGeometry_from_file a σ).2
            !! __rotation_quaternion = None) as Hafter.
  { apply (preserves_init_fields isfile DetectorGeometry_from_file
             (λ σ', self σ' !! __sample_rotation = None ∧
                    self σ' !! __rotation_quaternion = None)
             constructor_slots); try done.
    - by intros σ' [H _].
    - intros name w σ' Hin [H1 H2]. simpl.
      rewrite !lookup_insert_ne; [done|..]; intros ->;
        repeat (apply elem_of_cons in Hin as [Hin|Hin]; [discriminate Hin|]);
        by apply elem_of_nil in Hin. }
  split; [done|].
  set (σ1 := init_fields isfile DetectorGeometry_from_file a σ) in *.
  assert (py_ne s (VBool true) = false) as Hne by (unfold py_ne; by rewrite Htrue).
  unfold uniform_rotation_setter. rewrite Hv. simpl.
  erewrite bind_Return by (apply getattr_Some, lookup_insert_eq). cbv beta.
  rewrite Hne.
  erewrite (bind_Return (mret tt)) by reflexivity. cbv beta.
  erewrite bind_Raise; [reflexivity|].
  apply getattr_None. simpl. by rewrite lookup_insert_ne.
Qed.

Lemma uniform_rotation_needs_rotation_quaternion_attribute_witness :
  (uniform_rotation_setter (VBool true)
     (assign __sample_rotation (VBool true)
        (init_fields (λ _, false) (λ path, inl (IOError path)) no_args fresh).2)).1
  = Raise (AttributeError __rotation_quaternion).
Proof.
  destruct (uniform_rotation_needs_rotation_quaternion_attribute
              (λ _, false) (λ path, inl (IOError path)) no_args
              (VBool true) (VBool true) fresh eq_refl eq_refl eq_refl eq_refl)
    as [_ ->].
  reflexivity.
Defined.

(** X11: on an instance without [__sample_rotation], a setter that raises has
    changed nothing: every check comes before the one assignment. *)
Theorem rejected_assignment_changes_nothing
    (isfile : string → bool)
    (DetectorGeometry_from_file : string → Exception + DetectorGeometry)
    (p : Property) (v : Value) (σ σ' : State) (e : Exception) :
  self σ !! __sample_rotation = None →
  setter isfile DetectorGeometry_from_file p v σ = (Raise e, σ') →
  σ' = σ.
Proof.
  intros Hgate.
  destruct p; simpl;
    try (match goal with
         | |- ?m σ = _ → _ =>
             let H := fresh in
             assert (atomic m) as H;
             [ unfold sample_setter, sample_rotation_setter,
                 calculate_Compton_setter, number_of_slices_setter,
                 slice_interval_setter, pmi_start_ID_setter, pmi_stop_ID_setter,
                 beam_parameters_setter, number_of_diffraction_patterns_setter;
               solve [atomicity]
             | apply H ]
         end).
  - destruct (is_None v) eqn:Hv.
    + destruct v; try discriminate Hv. discriminate.
    + destruct (rotation_setters_need_sample_rotation v σ Hgate Hv) as [-> _].
      by intros [= _ <-].
  - destruct (is_None v) eqn:Hv.
    + destruct v; try discriminate Hv. discriminate.
    + destruct (rotation_setters_need_sample_rotation v σ Hgate Hv) as [_ ->].
      by intros [= _ <-].
  - destruct (is_None v) eqn:Hv.
    + destruct v; try discriminate Hv. discriminate.
    + assert (atomic (detector_geometry_setter isfile DetectorGeometry_from_file v))
        as H; [|apply H].
      unfold detector_geometry_setter. rewrite Hv. solve [atomicity].
Qed.

Lemma rejected_assignment_changes_nothing_witness :
  (setter (λ _, false) (λ path, inl (IOError path)) p_slice_interval
     (VInt (-5)) (assign __slice_interval (VInt 100) fresh)).2
  = assign __slice_interval (VInt 100) fresh.
Proof.
  destruct (setter (λ _, false) (λ path, inl (IOError path)) p_slice_interval
              (VInt (-5)) (assign __slice_interval (VInt 100) fresh))
    as [[[]|e] σ'] eqn:H.
  - discriminate H.
  - apply (rejected_assignment_changes_nothing (λ _, false)
             (λ path, inl (IOError path)) p_slice_interval (VInt (-5))
             (assign __slice_interval (VInt 100) fresh) σ' e eq_refl H).
Defined.

(** ** The instance after a construction *)

Lemma modifies_outcome {A} (m : M A) ks σ r σ' k :
  modifies m ks → m σ = (r, σ') → k ∉ ks → self σ' !! k = self σ !! k.
Proof. intros Hm H Hk. specialize (Hm σ k Hk). by rewrite H in Hm. Qed.

Lemma sample_setter_Return v σ σ' :
  sample_setter v σ = (Return tt, σ') →
  self σ' !! __sample = Some v ∧ (v = VNone ∨ ∃ x, v = VStr x).
Proof.
  destruct v as [|b|z|q|s|l|l|p|g];
    try (unfold sample_setter, mbind, M_bind; simpl; discriminate);
    intros [= <-]; (split; [apply lookup_insert_eq | eauto]).
Qed.

Lemma calculate_Compton_setter_Return v σ σ' :
  calculate_Compton_setter v σ = (Return tt, σ') →
  ∃ b, self σ' !! __calculate_Compton = Some (VBool b).
Proof.
  destruct v as [|b|z|q|s|l|l|p|g];
    try (unfold calculate_Compton_setter, mbind, M_bind; simpl; discriminate);
    intros [= <-]; eexists; apply lookup_insert_eq.
Qed.

Lemma uniform_rotation_setter_Return_ungated v σ σ' :
  self σ !! __sample_rotation = None →
  uniform_rotation_setter v σ = (Return tt, σ') →
  self σ' !! __uniform_rotation = Some VNone.
Proof.
  intros Hgate H. destruct (is_None v) eqn:Hv.
  - destruct v; try discriminate Hv. injection H as <-. apply lookup_insert_eq.
  - destruct (rotation_setters_need_sample_rotation v σ Hgate Hv) as [_ E].
    rewrite E in H. discriminate H.
Qed.

Section Construction.

Variable isfile : string → bool.
Variable DetectorGeometry_from_file : string → Exception + DetectorGeometry.

(** The setters [__init__] runs, in the order of both its branches, on
    given values. *)
Lemma assignments_establish_valid_fields
    (v1 v2 v3 v4 v5 v6 v7 v8 v9 v10 : Value) (σ σ' : State) :
  self σ !! __sample_rotation = None →
  (sample_setter v1;;
   uniform_rotation_setter v2;;
   calculate_Compton_setter v3;;
   slice_interval_setter v4;;
   number_of_slices_setter v5;;
   pmi_start_ID_setter v6;;
   pmi_stop_ID_setter v7;;
   beam_parameters_setter isfile v8;;
   detector_geometry_setter isfile DetectorGeometry_from_file v9;;
   number_of_diffraction_patterns_setter v10) σ = (Return tt, σ') →
  (self σ' !! __sample = Some v1 ∧ (v1 = VNone ∨ ∃ x, v1 = VStr x)) ∧
  self σ' !! __uniform_rotation = Some VNone ∧
  (∃ b, self σ' !! __calculate_Compton = Some (VBool b)) ∧
  (∀ f, ∃ v, self σ' !! count_slot f = Some v ∧ in_bound f v = true) ∧
  (self σ' !! __beam_parameters = Some VNone ∨
   ∃ p, self σ' !! __beam_parameters = Some (VBeam p)) ∧
  (self σ' !! __detector_geometry = Some VNone ∨
   ∃ g, self σ' !! __detector_geometry = Some (VGeometry g)).
Proof.
  intros Hgate H. split_binds H.
  rename E into E1, E0 into E2, E1 into E3, E2 into E4, E3 into E5,
         E4 into E6, E5 into E7, E6 into E8, E7 into E9, H into E10.
  assert (∀ (k : string) (ks : list string),
            bool_decide (k ∈ ks) = false → k ∉ ks) as Hnot
    by (intros k ks Hb; by apply bool_decide_eq_false in Hb).
  assert (self x0 !! __sample_rotation = None) as Hgate1.
  { rewrite (modifies_outcome _ _ _ _ _ __sample_rotation
               (modifies_sample_setter v1) E1) by (by apply Hnot).
    exact Hgate. }
  pose proof (λ k, modifies_outcome _ _ _ _ _ k
                (modifies_uniform_rotation_setter v2) E2) as F2.
  pose proof (λ k, modifies_outcome _ _ _ _ _ k
                (modifies_calculate_Compton_setter v3) E3) as F3.
  pose proof (λ k, modifies_outcome _ _ _ _ _ k
                (modifies_slice_interval_setter v4) E4) as F4.
  pose proof (λ k, modifies_outcome _ _ _ _ _ k
                (modifies_number_of_slices_setter v5) E5) as F5.
  pose proof (λ k, modifies_outcome _ _ _ _ _ k
                (modifies_pmi_start_ID_setter v6) E6) as F6.
  pose proof (λ k, modifies_outcome _ _ _ _ _ k
                (modifies_pmi_stop_ID_setter v7) E7) as F7.
  pose proof (λ k, modifies_outcome _ _ _ _ _ k
                (modifies_beam_parameters_setter isfile v8) E8) as F8.
  pose proof (λ k, modifies_outcome _ _ _ _ _ k
                (modifies_detector_geometry_setter isfile
                   DetectorGeometry_from_file v9) E9) as F9.
  pose proof (λ k, modifies_outcome _ _ _ _ _ k
                (modifies_number_of_diffraction_patterns_setter v10) E10) as F10.
  apply sample_setter_Return in E1.
  apply (uniform_rotation_setter_Return_ungated _ _ _ Hgate1) in E2.
  apply calculate_Compton_setter_Return in E3.
  apply (count_setter_Return SliceInterval) in E4 as [E4 B4].
  apply (count_setter_Return NumberOfSlices) in E5 as [E5 B5].
  apply (count_setter_Return PmiStartID) in E6 as [E6 B6].
  apply (count_setter_Return PmiStopID) in E7 as [E7 B7].
  apply beam_parameters_setter_Return in E8 as [E8 B8].
  apply detector_geometry_setter_Return in E9 as (w9 & E9 & _ & B9).
  apply (count_setter_Return NumberOfDiffractionPatterns) in E10 as [E10 B10].
  repeat split.
  - rewrite F10, F9, F8, F7, F6, F5, F4, F3, F2 by (by apply Hnot). apply E1.
  - apply E1.
  - rewrite F10, F9, F8, F7, F6, F5, F4, F3 by (by apply Hnot). apply E2.
  - destruct E3 as [b E3]. exists b.
    rewrite F10, F9, F8, F7, F6, F5, F4 by (by apply Hnot). apply E3.
  - intros f. destruct f; simpl.
    + eexists. split; [|exact B4].
      rewrite F10, F9, F8, F7, F6, F5 by (by apply Hnot).
      rewrite E4. apply lookup_insert_eq.
    + eexists. split; [|exact B5].
      rewrite F10, F9, F8, F7, F6 by (by apply Hnot).
      rewrite E5. apply lookup_insert_eq.
    + eexists. split; [|exact B6].
      rewrite F10, F9, F8, F7 by (by apply Hnot).
      rewrite E6. apply lookup_insert_eq.
    + eexists. split; [|exact B7].
      rewrite F10, F9, F8 by (by apply Hnot).
      rewrite E7. apply lookup_insert_eq.
    + eexists. split; [|exact B10].
      rewrite E10. apply lookup_insert_eq.
  - rewrite F10, F9 by (by apply Hnot). rewrite E8. simpl.
    rewrite lookup_insert_eq. destruct B8 as [->|[p ->]]; eauto.
  - rewrite F10 by (by apply Hnot). rewrite E9, lookup_insert_eq.
    destruct B9 as [[-> [->|[g ->]]]|(path & g & _ & _ & _ & ->)]; eauto.
Qed.

End Construction.

Section Constructed.

Variable isfile : string → bool.
Variable DetectorGeometry_from_file : string → Exception + DetectorGeometry.

Lemma legacy_fields_are_branch_fields a d :
  arg_parameters_dictionary a = Some d →
  (∀ key, key ∈ legacy_keys → is_Some (d !! key)) →
  init_fields isfile DetectorGeometry_from_file a
  = init_fields isfile DetectorGeometry_from_file (legacy_branch_args d (arg_kwargs a)).
Proof.
  intros Hd Hkeys.
  assert (∀ key, key ∈ legacy_keys →
            subscript d key = mret (default VNone (d !! key))) as Hsub.
  { intros key Hin. destruct (Hkeys key Hin) as [v Hv].
    unfold subscript. by rewrite Hv. }
  unfold init_fields, legacy_branch_args. rewrite Hd. simpl.
  rewrite !Hsub by in_list.
  reflexivity.
Qed.

(** A legacy construction whose assignments all return has found every
    key it reads. *)
Lemma legacy_fields_Return_keys a d σ σ' :
  arg_parameters_dictionary a = Some d →
  init_fields isfile DetectorGeometry_from_file a σ = (Return tt, σ') →
  ∀ key, key ∈ legacy_keys → is_Some (d !! key).
Proof.
  intros Hd H key Hin. unfold init_fields in H. rewrite Hd in H.
  split_binds H.
  repeat match goal with
         | E : subscript _ _ _ = (Return _, _) |- _ =>
             apply subscript_Return in E as [E _]
         end.
  repeat (apply elem_of_cons in Hin as [-> | Hin]; [by eexists|]).
  by apply elem_of_nil in Hin.
Qed.

(** X12: after the assignments of [__init__] have all returned, on an instance
    that had no [__sample_rotation], every field holds a value its setter
    accepts: [sample] is [None] or a string ([None] in the legacy branch,
    whatever the mapping holds), [uniform_rotation] is [None],
    [calculate_Compton] is a boolean, each count field is within its
    bound, [beam_parameters] is [None] or a beam object and
    [detector_geometry] is [None] or a geometry object; no warning was
    logged. *)
Theorem construction_establishes_valid_fields (a : InitArgs) (σ σ' : State) :
  self σ !! __sample_rotation = None →
  init_fields isfile DetectorGeometry_from_file a σ = (Return tt, σ') →
  (∃ s, self σ' !! __sample = Some s ∧ (s = VNone ∨ ∃ x, s = VStr x)) ∧
  (is_Some (arg_parameters_dictionary a) → self σ' !! __sample = Some VNone) ∧
  self σ' !! __uniform_rotation = Some VNone ∧
  (∃ b, self σ' !! __calculate_Compton = Some (VBool b)) ∧
  (∀ f, ∃ v, self σ' !! count_slot f = Some v ∧ in_bound f v = true) ∧
  (self σ' !! __beam_parameters = Some VNone ∨
   ∃ p, self σ' !! __beam_parameters = Some (VBeam p)) ∧
  (self σ' !! __detector_geometry = Some VNone ∨
   ∃ g, self σ' !! __detector_geometry = Some (VGeometry g)) ∧
  warnings_log σ' = warnings_log σ.
Proof.
  intros Hgate H.
  assert (warnings_log σ' = warnings_log σ) as Hwarn.
  { pose proof (after_keeps_warnings isfile DetectorGeometry_from_file
                  [InitFields a] σ Hgate) as Hw.
    simpl in Hw. by rewrite H in Hw. }
  destruct (arg_parameters_dictionary a) as [d|] eqn:Hd.
  - pose proof (legacy_fields_Return_keys a d σ σ' Hd H) as Hkeys.
    rewrite (legacy_fields_are_branch_fields a d Hd Hkeys) in H.
    unfold init_fields, legacy_branch_args in H. simpl in H.
    apply (assignments_establish_valid_fields isfile DetectorGeometry_from_file)
      in H as ([Hs Hs'] & Hu & Hc & Hn & Hb & Hg); [|done].
    eauto 10.
  - unfold init_fields in H. rewrite Hd in H.
    apply (assignments_establish_valid_fields isfile DetectorGeometry_from_file)
      in H as ([Hs Hs'] & Hu & Hc & Hn & Hb & Hg); [|done].
    split; [eauto|]. split; [by intros [? ?]|]. eauto 10.
Qed.

End Constructed.

Lemma construction_establishes_valid_fields_witness :
  self (init_fields (λ _, false) (λ path, inl (IOError path))
          (legacy_args (<["sample" := VStr "sample.pdb"]> legacy_defaults) ∅)
          fresh).2 !! __sample = Some VNone ∧
  self (init_fields (λ _, false) (λ path, inl (IOError path))
          (legacy_args (<["sample" := VStr "sample.pdb"]> legacy_defaults) ∅)
          fresh).2 !! __uniform_rotation = Some VNone.
Proof.
  assert (init_fields (λ _, false) (λ path, inl (IOError path))
            (legacy_args (<["sample" := VStr "sample.pdb"]> legacy_defaults) ∅)
            fresh
          = (Return tt,
             (init_fields (λ _, false) (λ path, inl (IOError path))
                (legacy_args (<["sample" := VStr "sample.pdb"]> legacy_defaults) ∅)
                fresh).2)) as Hrun by vm_reflexivity.
  destruct (construction_establishes_valid_fields (λ _, false)
              (λ path, inl (IOError path))
              (legacy_args (<["sample" := VStr "sample.pdb"]> legacy_defaults) ∅)
              fresh _ eq_refl Hrun)
    as (_ & Hs & Hu & _).
  split; [apply Hs; by eexists | exact Hu].
Defined.

(** ** Legacy construction against keyword construction *)

Section LegacyAgainstKeyword.

Variable isfile : string → bool.
Variable DetectorGeometry_from_file : string → Exception + DetectorGeometry.
Variable AbstractCalculatorParameters_init : gmap string Value → M unit.

(** Once the assignments of [__init__] have all returned, [__sample] holds
    what the first of them was given: none of the later setters touches
    it. *)
Lemma assignments_store_sample
    (v1 v2 v3 v4 v5 v6 v7 v8 v9 v10 : Value) (σ σ' : State) :
  (sample_setter v1;;
   uniform_rotation_setter v2;;
   calculate_Compton_setter v3;;
   slice_interval_setter v4;;
   number_of_slices_setter v5;;
   pmi_start_ID_setter v6;;
   pmi_stop_ID_setter v7;;
   beam_parameters_setter isfile v8;;
   detector_geometry_setter isfile DetectorGeometry_from_file v9;;
   number_of_diffraction_patterns_setter v10) σ = (Return tt, σ') →
  self σ' !! __sample = Some v1.
Proof.
  intros H. split_binds H.
  rename E into E1, E0 into E2, E1 into E3, E2 into E4, E3 into E5,
         E4 into E6, E5 into E7, E6 into E8, E7 into E9, H into E10.
  assert (∀ (k : string) (ks : list string),
            bool_decide (k ∈ ks) = false → k ∉ ks) as Hnot
    by (intros k ks Hb; by apply bool_decide_eq_false in Hb).
  rewrite (modifies_outcome _ _ _ _ _ __sample
             (modifies_number_of_diffraction_patterns_setter v10) E10),
          (modifies_outcome _ _ _ _ _ __sample
             (modifies_detector_geometry_setter isfile
                DetectorGeometry_from_file v9) E9),
          (modifies_outcome _ _ _ _ _ __sample
             (modifies_beam_parameters_setter isfile v8) E8),
          (modifies_outcome _ _ _ _ _ __sample
             (modifies_pmi_stop_ID_setter v7) E7),
          (modifies_outcome _ _ _ _ _ __sample
             (modifies_pmi_start_ID_setter v6) E6),
          (modifies_outcome _ _ _ _ _ __sample
             (modifies_number_of_slices_setter v5) E5),
          (modifies_outcome _ _ _ _ _ __sample
             (modifies_slice_interval_setter v4) E4),
          (modifies_outcome _ _ _ _ _ __sample
             (modifies_calculate_Compton_setter v3) E3),
          (modifies_outcome _ _ _ _ _ __sample
             (modifies_uniform_rotation_setter v2) E2)
    by (by apply Hnot).
  by apply sample_setter_Return in E1 as [E1 _].
Qed.

(** The keyword branch stores the [sample] argument. *)
Lemma keyword_fields_store_sample a σ σ' :
  arg_parameters_dictionary a = None →
  init_fields isfile DetectorGeometry_from_file a σ = (Return tt, σ') →
  self σ' !! __sample = Some (arg_sample a).
Proof.
  intros Hd H. unfold init_fields in H. rewrite Hd in H.
  by apply assignments_store_sample in H.
Qed.

(** The legacy branch stores [None] under [__sample], whatever the mapping
    holds. *)
Lemma legacy_fields_store_no_sample a d σ σ' :
  arg_parameters_dictionary a = Some d →
  init_fields isfile DetectorGeometry_from_file a σ = (Return tt, σ') →
  self σ' !! __sample = Some VNone.
Proof.
  intros Hd H.
  pose proof (legacy_fields_Return_keys isfile DetectorGeometry_from_file
                a d σ σ' Hd H) as Hkeys.
  rewrite (legacy_fields_are_branch_fields isfile DetectorGeometry_from_file
             a d Hd Hkeys) in H.
  by apply (keyword_fields_store_sample (legacy_branch_args d (arg_kwargs a))
              σ σ' eq_refl) in H.
Qed.

(** With no ['sample'] entry in the mapping, or [None] there, the keyword call with
    the mapping's values is the call the legacy branch runs as. *)
Lemma keyword_is_branch_construction d kwargs :
  default VNone (d !! "sample") = VNone →
  __init__ isfile DetectorGeometry_from_file AbstractCalculatorParameters_init
           (keyword_args d kwargs)
  = __init__ isfile DetectorGeometry_from_file AbstractCalculatorParameters_init
             (legacy_branch_args d kwargs).
Proof.
  intros Hsample.
  unfold __init__, init_fields, keyword_args, legacy_branch_args. simpl.
  by rewrite Hsample.
Qed.

End LegacyAgainstKeyword.

(** C5, as the code has it.  A legacy mapping without ['calculate_Compton']
    never yields an object; the failure is the [KeyError] for that key when
    the mapping's ['uniform_rotation'] entry is [None].  A legacy mapping
    with all the keys the branch reads runs exactly as the keyword call
    that passes those nine values and no sample.  It runs as the keyword
    call with the same field values, [keyword_args], when the mapping holds
    no ['sample'] entry or [None] there; when it holds a sample, the two
    constructions differ in what they store: the legacy branch never reads
    the entry and leaves [None] under [__sample], the keyword call stores
    the entry. *)
Theorem legacy_construction
    (isfile : string → bool)
    (DetectorGeometry_from_file : string → Exception + DetectorGeometry)
    (AbstractCalculatorParameters_init : gmap string Value → M unit)
    (a : InitArgs) (d : gmap string Value) (σ : State) :
  arg_parameters_dictionary a = Some d →
  (d !! "calculate_Compton" = None →
   ∃ e, (__init__ isfile DetectorGeometry_from_file
           AbstractCalculatorParameters_init a σ).1
        = Raise e) ∧
  (d !! "calculate_Compton" = None → d !! "uniform_rotation" = Some VNone →
   (__init__ isfile DetectorGeometry_from_file
      AbstractCalculatorParameters_init a σ).1
   = Raise (KeyError "calculate_Compton")) ∧
  ((∀ key, key ∈ legacy_keys → is_Some (d !! key)) →
   __init__ isfile DetectorGeometry_from_file AbstractCalculatorParameters_init
            a σ
   = __init__ isfile DetectorGeometry_from_file AbstractCalculatorParameters_init
              (legacy_branch_args d (arg_kwargs a)) σ) ∧
  ((∀ key, key ∈ legacy_keys → is_Some (d !! key)) →
   default VNone (d !! "sample") = VNone →
   __init__ isfile DetectorGeometry_from_file AbstractCalculatorParameters_init
            a σ
   = __init__ isfile DetectorGeometry_from_file AbstractCalculatorParameters_init
              (keyword_args d (arg_kwargs a)) σ) ∧
  (∀ σ1 σ2,
     init_fields isfile DetectorGeometry_from_file a σ = (Return tt, σ1) →
     init_fields isfile DetectorGeometry_from_file
       (keyword_args d (arg_kwargs a)) σ = (Return tt, σ2) →
     self σ1 !! __sample = Some VNone ∧
     self σ2 !! __sample = Some (default VNone (d !! "sample"))).
Proof.
  intros Hd.
  assert ((∀ key, key ∈ legacy_keys → is_Some (d !! key)) →
          __init__ isfile DetectorGeometry_from_file
            AbstractCalculatorParameters_init a σ
          = __init__ isfile DetectorGeometry_from_file
              AbstractCalculatorParameters_init
              (legacy_branch_args d (arg_kwargs a)) σ) as Hbranch.
  { intros Hkeys.
    rewrite <- (legacy_is_branch_construction isfile DetectorGeometry_from_file
                  AbstractCalculatorParameters_init d (arg_kwargs a) Hkeys).
    unfold __init__, init_fields. simpl. by rewrite Hd. }
  split; [|split; [|split; [|split]]].
  - intros Hc.
    by apply (legacy_missing_calculate_Compton isfile DetectorGeometry_from_file
                AbstractCalculatorParameters_init d (arg_kwargs a)).
  - intros Hc Hu.
    by apply (legacy_missing_calculate_Compton isfile DetectorGeometry_from_file
                AbstractCalculatorParameters_init d (arg_kwargs a)).
  - exact Hbranch.
  - intros Hkeys Hsample.
    by rewrite keyword_is_branch_construction, Hbranch.
  - intros σ1 σ2 H1 H2. split.
    + by apply (legacy_fields_store_no_sample isfile DetectorGeometry_from_file
                  a d σ σ1).
    + by apply (keyword_fields_store_sample isfile DetectorGeometry_from_file
                  (keyword_args d (arg_kwargs a)) σ σ2 eq_refl) in H2.
Qed.

Lemma legacy_construction_witness :
  (__init__ (λ _, false) (λ path, inl (IOError path)) (λ _, _setDefaults)
     (legacy_args (delete "calculate_Compton" legacy_defaults) ∅) fresh).1
  = Raise (KeyError "calculate_Compton") ∧
  __init__ (λ _, false) (λ path, inl (IOError path)) (λ _, _setDefaults)
     (legacy_args legacy_defaults ∅) fresh
  = __init__ (λ _, false) (λ path, inl (IOError path)) (λ _, _setDefaults)
     (keyword_args legacy_defaults ∅) fresh ∧
  (__init__ (λ _, false) (λ path, inl (IOError path)) (λ _, _setDefaults)
     (legacy_args legacy_defaults ∅) fresh).1 = Return tt ∧
  self (init_fields (λ _, false) (λ path, inl (IOError path))
          (legacy_args (<["sample" := VStr "sample.pdb"]> legacy_defaults) ∅)
          fresh).2 !! __sample = Some VNone ∧
  self (init_fields (λ _, false) (λ path, inl (IOError path))
          (keyword_args (<["sample" := VStr "sample.pdb"]> legacy_defaults) ∅)
          fresh).2 !! __sample = Some (VStr "sample.pdb").
Proof.
  assert (∀ key, key ∈ legacy_keys → is_Some (legacy_defaults !! key)) as Hkeys.
  { intros key Hin.
    repeat (apply elem_of_cons in Hin as [-> | Hin];
            [vm_compute; eexists; reflexivity|]).
    destruct (proj1 (elem_of_nil _) Hin). }
  split; [|split; [|split]].
  - destruct (legacy_construction (λ _, false) (λ path, inl (IOError path))
                (λ _, _setDefaults)
                (legacy_args (delete "calculate_Compton" legacy_defaults) ∅)
                (delete "calculate_Compton" legacy_defaults)
                fresh eq_refl) as (_ & H & _).
    apply H; reflexivity.
  - destruct (legacy_construction (λ _, false) (λ path, inl (IOError path))
                (λ _, _setDefaults) (legacy_args legacy_defaults ∅)
                legacy_defaults fresh eq_refl) as (_ & _ & _ & H & _).
    apply H; [exact Hkeys | reflexivity].
  - reflexivity.
  - destruct (legacy_construction (λ _, false) (λ path, inl (IOError path))
                (λ _, _setDefaults)
                (legacy_args (<["sample" := VStr "sample.pdb"]> legacy_defaults) ∅)
                (<["sample" := VStr "sample.pdb"]> legacy_defaults)
                fresh eq_refl) as (_ & _ & _ & _ & H).
    apply H; vm_reflexivity.
Defined.

(** C5 as stated fails twice.  On a mapping that lacks
    ['calculate_Compton'] and holds [True] under ['uniform_rotation'] the
    assignment of [uniform_rotation] comes first and raises
    [AttributeError], so no missing key is reported.  On a mapping that has
    every key the legacy branch reads and a file name under ['sample'],
    legacy construction and keyword construction with the same field values
    both return, and the instances differ: [None] against the file name
    under [__sample]. *)
Lemma legacy_departs_from_keyword_construction :
  ((<["uniform_rotation" := VBool true]>
      (delete "calculate_Compton" legacy_defaults)) !! "calculate_Compton" = None ∧
   (__init__ (λ _, false) (λ path, inl (IOError path)) (λ _, _setDefaults)
      (legacy_args (<["uniform_rotation" := VBool true]>
                      (delete "calculate_Compton" legacy_defaults)) ∅) fresh).1
   = Raise (AttributeError __sample_rotation)) ∧
  (Forall (λ key, is_Some ((<["sample" := VStr "sample.pdb"]> legacy_defaults)
                             !! key)) ("sample" :: legacy_keys) ∧
   (__init__ (λ _, false) (λ path, inl (IOError path)) (λ _, _setDefaults)
      (legacy_args (<["sample" := VStr "sample.pdb"]> legacy_defaults) ∅)
      fresh).1 = Return tt ∧
   (__init__ (λ _, false) (λ path, inl (IOError path)) (λ _, _setDefaults)
      (keyword_args (<["sample" := VStr "sample.pdb"]> legacy_defaults) ∅)
      fresh).1 = Return tt ∧
   self (__init__ (λ _, false) (λ path, inl (IOError path)) (λ _, _setDefaults)
           (legacy_args (<["sample" := VStr "sample.pdb"]> legacy_defaults) ∅)
           fresh).2 !! __sample = Some VNone ∧
   self (__init__ (λ _, false) (λ path, inl (IOError path)) (λ _, _setDefaults)
           (keyword_args (<["sample" := VStr "sample.pdb"]> legacy_defaults) ∅)
           fresh).2 !! __sample = Some (VStr "sample.pdb")).
Proof.
  split; [split; reflexivity|].
  split; [|repeat split; vm_reflexivity].
  repeat (apply Forall_cons; split; [vm_compute; eexists; reflexivity|]).
  apply Forall_nil_2.
Qed.

(** ** Assignments that do not depend on the instance *)

Section Independence.

Variable isfile : string → bool.
Variable DetectorGeometry_from_file : string → Exception + DetectorGeometry.

Lemma count_setter_ignores_state (f : CountField) (v : Value) :
  (∃ e, ∀ σ, count_setter f v σ = (Raise e, σ)) ∨
  (∃ w, ∀ σ, count_setter f v σ = (Return tt, assign (count_slot f) w σ)).
Proof.
  destruct v as [|b|z|q|s|l|l|x|g];
    try (left; destruct f; eexists; intros σ; reflexivity).
  - right. destruct f; eexists; intros σ; reflexivity.
  - destruct f, b;
      first [ left; eexists; intros σ; reflexivity
            | right; eexists; intros σ; reflexivity ].
  - destruct (lower_bound f <=? z) eqn:Hz.
    + right. exists (VInt z). intros σ.
      destruct (count_setter_int f z σ) as [msg ->]. by rewrite Hz.
    + left. apply Z.leb_gt in Hz.
      destruct f; simpl in Hz; eexists; intros σ; simpl;
        unfold slice_interval_setter, number_of_slices_setter,
          pmi_start_ID_setter, pmi_stop_ID_setter,
          number_of_diffraction_patterns_setter;
        (erewrite bind_Return by apply checkAndSetInstance_int);
        first [ erewrite bind_Return by apply py_gt_0_int;
                replace (0 <? z) with false
                  by (symmetry; apply Z.ltb_ge; lia)
              | erewrite bind_Return by apply py_ge_0_int;
                replace (0 <=? z) with false
                  by (symmetry; apply Z.leb_gt; lia) ];
        reflexivity.
Qed.

Lemma setter_state_independent (p : Property) (v : Value) :
  gated p = false →
  (∃ e, ∀ σ, setter isfile DetectorGeometry_from_file p v σ = (Raise e, σ)) ∨
  (∃ w lines,
     (lines = [] ∨ p = p_detector_geometry) ∧
     ∀ σ, setter isfile DetectorGeometry_from_file p v σ
          = (Return tt,
             mkState (<[storage_slot p := w]> (self σ)) (warnings_log σ)
                     (stdout σ ++ lines))).
Proof.
  intros Hp.
  assert (∀ σ, stdout σ = stdout σ ++ []) as Hnil
    by (intros; by rewrite app_nil_r).
  assert (∀ f, p = count_property f →
            (∃ e, ∀ σ, setter isfile DetectorGeometry_from_file p v σ
                       = (Raise e, σ)) ∨
            (∃ w lines,
               (lines = [] ∨ p = p_detector_geometry) ∧
               ∀ σ, setter isfile DetectorGeometry_from_file p v σ
                    = (Return tt,
                       mkState (<[storage_slot p := w]> (self σ))
                               (warnings_log σ) (stdout σ ++ lines)))) as Hcount.
  { intros f ->.
    destruct (count_setter_ignores_state f v) as [[e He]|[w Hw]].
    - left. exists e. intros σ. by rewrite count_setter_is_setter.
    - right. exists w, []. split; [by left|]. intros σ.
      rewrite count_setter_is_setter, Hw, count_slot_is_storage_slot, <- Hnil.
      reflexivity. }
  destruct p; try discriminate Hp;
    try (by apply (Hcount NumberOfSlices));
    try (by apply (Hcount SliceInterval));
    try (by apply (Hcount PmiStartID));
    try (by apply (Hcount PmiStopID));
    try (by apply (Hcount NumberOfDiffractionPatterns));
    clear Hcount.
  - destruct v as [|b|z|q|s|l|l|x|g];
      first [ left; eexists; intros σ; reflexivity
            | right; eexists _, []; split; [by left|]; intros σ;
              rewrite <- Hnil; reflexivity ].
  - destruct v as [|b|z|q|s|l|l|x|g];
      first [ left; eexists; intros σ; reflexivity
            | right; eexists _, []; split; [by left|]; intros σ;
              rewrite <- Hnil; reflexivity ].
  - destruct v as [|b|z|q|s|l|l|x|g];
      first [ left; eexists; intros σ; reflexivity
            | right; eexists _, []; split; [by left|]; intros σ;
              rewrite <- Hnil; reflexivity ].
  - destruct v as [|b|z|q|s|l|l|x|g];
      try (left; eexists; intros σ; reflexivity);
      try (right; eexists _, []; split; [by left|]; intros σ;
           rewrite <- Hnil; reflexivity).
    left. eexists. intros σ. apply beam_parameters_setter_string.
  - destruct v as [|b|z|q|s|l|l|x|g];
      try (left; eexists; intros σ; reflexivity).
    + right.
      exists VNone,
        ["WARNING: Geometry not set, calculation will most probably fail."].
      split; [by right|]. intros σ. reflexivity.
    + destruct (isfile s) eqn:Hfile.
      * destruct (DetectorGeometry_from_file s) as [e|g] eqn:Hload.
        -- left. exists e. intros σ.
           destruct (detector_geometry_setter_by_case isfile
                       DetectorGeometry_from_file s (DetectorGeometryObject 0) e σ)
             as (_ & _ & _ & H).
           by apply H.
        -- right. exists (VGeometry g), []. split; [by left|]. intros σ.
           rewrite <- Hnil.
           destruct (detector_geometry_setter_by_case isfile
                       DetectorGeometry_from_file s g (IOError s) σ)
             as (_ & _ & H & _).
           by apply H.
      * left. eexists. intros σ. by apply detector_geometry_setter_missing.
    + right. eexists _, []. split; [by left|]. intros σ.
      rewrite <- Hnil. reflexivity.
Qed.

(** X13: apart from the two rotation setters, no setter consults the instance:
    for a given value it either raises the same exception in every state
    and changes nothing, or stores the same value in every state ([stdout]
    grows by the one line only for [detector_geometry = None]). *)
Theorem ungated_setter_ignores_state (p : Property) (v : Value) :
  gated p = false →
  (∃ e, ∀ σ, setter isfile DetectorGeometry_from_file p v σ = (Raise e, σ)) ∨
  (∃ w lines,
     (lines = [] ∨ p = p_detector_geometry) ∧
     ∀ σ, setter isfile DetectorGeometry_from_file p v σ
          = (Return tt,
             mkState (<[storage_slot p := w]> (self σ)) (warnings_log σ)
                     (stdout σ ++ lines))).
Proof. apply setter_state_independent. Qed.

(** X14: two assignments to properties stored in different attributes, neither
    of them a rotation setter, can be made in either order: when the one
    order returns, so does the other, and it ends in the same state. *)
Theorem ungated_assignments_commute (p q : Property) (v w : Value)
    (σ σ1 σ2 : State) :
  gated p = false → gated q = false → storage_slot p ≠ storage_slot q →
  setter isfile DetectorGeometry_from_file p v σ = (Return tt, σ1) →
  setter isfile DetectorGeometry_from_file q w σ1 = (Return tt, σ2) →
  ∃ σ1', setter isfile DetectorGeometry_from_file q w σ = (Return tt, σ1') ∧
         setter isfile DetectorGeometry_from_file p v σ1' = (Return tt, σ2).
Proof.
  intros Hp Hq Hslots H1 H2.
  destruct (setter_state_independent p v Hp) as [[e Hpe]|(wp & lp & Hlp & Hpw)].
  { rewrite Hpe in H1. discriminate H1. }
  destruct (setter_state_independent q w Hq) as [[e Hqe]|(wq & lq & Hlq & Hqw)].
  { rewrite Hqe in H2. discriminate H2. }
  rewrite Hpw in H1. injection H1 as <-.
  rewrite Hqw in H2. injection H2 as <-. simpl.
  eexists. split; [apply Hqw|]. rewrite Hpw. simpl.
  f_equal. f_equal.
  - by apply insert_insert_ne.
  - destruct Hlp as [->| ->]; destruct Hlq as [->| ->];
      rewrite ?app_nil_r; done.
Qed.

End Independence.

Lemma ungated_setter_ignores_state_witness :
  (∃ e, ∀ σ, setter (λ _, false) (λ path, inl (IOError path))
               p_slice_interval (VInt 5) σ = (Raise e, σ)) ∨
  (∃ w lines,
     (lines = [] ∨ p_slice_interval = p_detector_geometry) ∧
     ∀ σ, setter (λ _, false) (λ path, inl (IOError path))
            p_slice_interval (VInt 5) σ
          = (Return tt,
             mkState (<[storage_slot p_slice_interval := w]> (self σ))
                     (warnings_log σ) (stdout σ ++ lines))).
Proof.
  apply (ungated_setter_ignores_state (λ _, false) (λ path, inl (IOError path))
           p_slice_interval (VInt 5)).
  reflexivity.
Defined.

Lemma ungated_assignments_commute_witness :
  ∃ σ1', setter (λ _, false) (λ path, inl (IOError path)) p_detector_geometry
           VNone fresh = (Return tt, σ1') ∧
         setter (λ _, false) (λ path, inl (IOError path)) p_slice_interval
           (VInt 5) σ1'
         = (Return tt,
            (setter (λ _, false) (λ path, inl (IOError path)) p_detector_geometry
               VNone (assign __slice_interval (VInt 5) fresh)).2).
Proof.
  apply (ungated_assignments_commute (λ _, false) (λ path, inl (IOError path))
           p_slice_interval p_detector_geometry (VInt 5) VNone fresh
           (assign __slice_interval (VInt 5) fresh)).
  - reflexivity.
  - reflexivity.
  - discriminate.
  - reflexivity.
  - reflexivity.
Defined.
